(** * A shallow embedding of the youtube-backend controllers

    The repository is a set of request handlers over a document store.
    The embedding keeps the handlers' control flow: every guard, every
    store call and every response of the tweet, user and subscription
    controllers is written out in the order of the source, over an
    in-memory model of the collections (finite maps keyed by [_id]).

    - JavaScript values that the handlers test for truthiness are
      [JS.value]s, [undefined] request fields are [None];
    - a thrown error is [Thrown e], a sent response is [Sent r];
    - handlers that write to the store return the new store. *)

From Stdlib Require Import ZArith NArith String Ascii.
From stdpp Require Import gmap strings list fin_maps.

Open Scope string_scope.

(** ** JavaScript values, truthiness and the string methods in use *)

Module JS.

Inductive value :=
| Undefined
| Null
| Bool (b : bool)
| Str (s : string)
| Object     (* any object or array: documents, query results *)
| Function.  (* a function value, e.g. an imported helper *)

(** ToBoolean. *)
Definition truthy (v : value) : bool :=
  match v with
  | Undefined | Null => false
  | Bool b => b
  | Str s => negb (bool_decide (s = EmptyString))
  | Object | Function => true
  end.

(** A request field that is either absent or a string. *)
Definition of_field (o : option string) : value :=
  match o with Some s => Str s | None => Undefined end.

(** A query result that is either [null] or a document. *)
Definition of_doc {A} (o : option A) : value :=
  match o with Some _ => Object | None => Null end.

(** Strings hold the UTF-8 encoding of the JavaScript string. The
    WhiteSpace and LineTerminator code points of one byte: TAB, LF, VT,
    FF, CR and SP. *)
Definition isWhiteSpace1 (c : ascii) : bool :=
  let n := nat_of_ascii c in
  (((9 <=? n) && (n <=? 13)) || (n =? 32))%nat.

(** Of two bytes: U+00A0 (C2 A0). *)
Definition isWhiteSpace2 (c1 c2 : ascii) : bool :=
  ((nat_of_ascii c1 =? 194) && (nat_of_ascii c2 =? 160))%nat.

(** Of three bytes: U+1680 (E1 9A 80), U+2000 to U+200A, U+2028, U+2029
    and U+202F (E2 80 ..), U+205F (E2 81 9F), U+3000 (E3 80 80) and
    U+FEFF (EF BB BF). *)
Definition isWhiteSpace3 (c1 c2 c3 : ascii) : bool :=
  let a := nat_of_ascii c1 in
  let b := nat_of_ascii c2 in
  let c := nat_of_ascii c3 in
  (((a =? 225) && (b =? 154) && (c =? 128))
   || ((a =? 226) && (b =? 128)
       && (((128 <=? c) && (c <=? 138)) || (c =? 168) || (c =? 169) || (c =? 175)))
   || ((a =? 226) && (b =? 129) && (c =? 159))
   || ((a =? 227) && (b =? 128) && (c =? 128))
   || ((a =? 239) && (b =? 187) && (c =? 191)))%nat.

(** Drops the white space at the head of a string; with [backwards] the
    string is read from its end, so the bytes of a code point come in
    the opposite order. *)
Fixpoint dropWhiteSpace (backwards : bool) (s : string) : string :=
  match s with
  | EmptyString => EmptyString
  | String c1 s1 =>
      if isWhiteSpace1 c1 then dropWhiteSpace backwards s1
      else
        match s1 with
        | EmptyString => s
        | String c2 s2 =>
            if (if backwards then isWhiteSpace2 c2 c1 else isWhiteSpace2 c1 c2)
            then dropWhiteSpace backwards s2
            else
              match s2 with
              | EmptyString => s
              | String c3 s3 =>
                  if (if backwards then isWhiteSpace3 c3 c2 c1
                      else isWhiteSpace3 c1 c2 c3)
                  then dropWhiteSpace backwards s3
                  else s
              end
        end
  end.

Definition trimStart (s : string) : string := dropWhiteSpace false s.

Definition trimEnd (s : string) : string :=
  String.rev (dropWhiteSpace true (String.rev s)).

(** [String.prototype.trim] on UTF-8 encoded strings. *)
Definition trim (s : string) : string := trimEnd (trimStart s).

End JS.

(** ** Errors and responses *)

(** What a handler can throw: the repository's [ApiError] with its status
    code, or an error of the runtime or of a library, with its name
    (TypeError, ReferenceError, CastError, ...) and message. *)
Inductive error :=
| ApiError (statusCode : Z) (message : string)
| RuntimeError (name : string) (message : string).

(** [error?.message] *)
Definition error_message (e : error) : string :=
  match e with
  | ApiError _ m | RuntimeError _ m => m
  end.

(** utils/ApiResponse.js *)
Record ApiResponse (D : Type) := mkApiResponse {
  statusCode : Z;
  data : D;
  message : string;
  success : bool
}.
Arguments mkApiResponse {D}.
Arguments statusCode {D}.
Arguments data {D}.
Arguments message {D}.
Arguments success {D}.

(** [new ApiResponse(statusCode, data, message)] *)
Definition newApiResponse {D} (statusCode : Z) (data : D) (message : string)
  : ApiResponse D :=
  mkApiResponse statusCode data message (statusCode <? 400)%Z.

(** The default of the third constructor argument. *)
Definition defaultMessage : string := "Success".

(** [res.status(s).cookie(..).clearCookie(..).json(body)]: the cookies set
    carry the value they were given, which may be [undefined]. *)
Record Response (D : Type) := mkResponse {
  status : Z;
  cookies : list (string * option string);
  clearedCookies : list string;
  json : ApiResponse D
}.
Arguments mkResponse {D}.
Arguments status {D}.
Arguments cookies {D}.
Arguments clearedCookies {D}.
Arguments json {D}.

Inductive outcome (D : Type) :=
| Sent (r : Response D)
| Thrown (e : error).
Arguments Sent {D}.
Arguments Thrown {D}.

Definition respond {D} (status : Z) (body : ApiResponse D) : outcome D :=
  Sent (mkResponse status [] [] body).

(** The error kinds of the specification, as status codes. *)
Definition BadRequest : Z := 400.
Definition Unauthorized : Z := 401.
Definition Forbidden : Z := 403.
Definition NotFound : Z := 404.
Definition Conflict : Z := 409.
Definition InternalError : Z := 500.

Definition failsWith {D} (kind : Z) (o : outcome D) : Prop :=
  exists msg, o = Thrown (ApiError kind msg).

Definition succeeds {D} (o : outcome D) : Prop :=
  exists r, o = Sent r /\ success (json r) = true.

(** ** Documents and collections *)

(** A document identity (a 12-byte ObjectId, read as a number). Two
    identities are equal exactly when their [toString()] forms are. *)
Abbreviation ObjectId := N (only parsing).

Module User.
Record t := mk {
  fullName : string;
  username : string;
  email : string;
  password : string;
  avatar : string;
  coverImage : string;
  refreshToken : option string;
  watchHistory : list ObjectId
}.

(** [user.refreshToken = token], as the token helper assigns it. *)
Definition setRefreshToken (token : option string) (u : t) : t :=
  mk (fullName u) (username u) (email u) (password u) (avatar u)
     (coverImage u) token (watchHistory u).
End User.

Module Tweet.
Record t := mk {
  content : string;
  tweetOwner : ObjectId;
  createdAt : Z
}.

(** [$set: { content }] *)
Definition setContent (c : string) (d : t) : t :=
  mk c (tweetOwner d) (createdAt d).
End Tweet.

Module Like.
(** A like targets a tweet when its [tweet] field is set. *)
Record t := mk {
  tweet : option ObjectId;
  likedBy : ObjectId
}.
End Like.

Module Subscription.
Record t := mk {
  subscriber : ObjectId;
  channel : ObjectId
}.
End Subscription.

Module Video.
(** Only [owner] is read by the controllers; [details] stands for the
    rest of the record, which the watch history passes through. *)
Record t := mk {
  owner : ObjectId;
  details : string
}.
End Video.

Record Store := mkStore {
  users : gmap N User.t;
  tweets : gmap N Tweet.t;
  likes : gmap N Like.t;
  subscriptions : gmap N Subscription.t;
  videos : gmap N Video.t
}.

Definition withUsers (c : gmap N User.t) (st : Store) : Store :=
  mkStore c (tweets st) (likes st) (subscriptions st) (videos st).
Definition withTweets (c : gmap N Tweet.t) (st : Store) : Store :=
  mkStore (users st) c (likes st) (subscriptions st) (videos st).
Definition withSubscriptions (c : gmap N Subscription.t) (st : Store) : Store :=
  mkStore (users st) (tweets st) (likes st) c (videos st).

(** The document mapper's calls, on one collection. *)
Section Collection.
Context {A : Type}.
Implicit Types (c : gmap N A) (id : N).

(** The documents in the collection's natural order. *)
Definition documents c : list (N * A) := map_to_list c.

(** The documents matching a filter. *)
Definition find (P : A -> Prop) `{!forall d, Decision (P d)} c : list (N * A) :=
  filter (fun d => P d.2) (documents c).

Definition findOne (P : A -> Prop) `{!forall d, Decision (P d)} c : option (N * A) :=
  head (find P c).

Definition findById c id : option A := c !! id.

(** The identity given to a created document: one above every identity
    in the collection. *)
Definition newObjectId c : N :=
  foldr (fun d r => N.max (N.succ d.1) r) 0%N (documents c).

Definition create (d : A) c : (N * A) * gmap N A :=
  let id := newObjectId c in ((id, d), <[id := d]> c).

(** With [{ new: true }]: the updated document, or [null]. *)
Definition findByIdAndUpdate id (f : A -> A) c : option A * gmap N A :=
  (f <$> c !! id, alter f id c).

Definition findByIdAndDelete id c : option A * gmap N A :=
  (c !! id, delete id c).
End Collection.

(** [$lookup] with [localField]/[foreignField] and a sub-pipeline: the
    documents of [from] whose foreign field matches, each passed through
    the sub-pipeline. *)
Definition lookupFrom {B C} (from : gmap N B) (P : N * B -> Prop)
  `{!forall d, Decision (P d)} (pipeline : N * B -> C) : list C :=
  pipeline <$> filter P (documents from).

(** ** External collaborators

    Library and model code that the controllers call and the repository
    does not hold. *)

(** The object literal handed to [User.create]. *)
Record UserInput := mkUserInput {
  in_fullName : option string;
  in_avatar : string;
  in_coverImage : string;
  in_email : option string;
  in_password : option string;
  in_username : string
}.

Class Env := {
  (** [mongoose.isValidObjectId] on a string *)
  isValidObjectId : string -> bool;
  (** the mapper's cast of a string to an identity in a query;
      [None] when the cast fails *)
  castObjectId : string -> option ObjectId;
  (** [jwt.verify] with the refresh secret: the message of the error it
      throws, or the [_id] of the payload, if it has one *)
  jwtVerify : string -> string + option string;
  (** [user.generateAccessToken()] and [user.generateRefreshToken()], at
      a given time *)
  generateAccessToken : Z -> ObjectId -> User.t -> string;
  generateRefreshToken : Z -> ObjectId -> User.t -> string;
  (** [user.isPasswordCorrect(password)] *)
  isPasswordCorrect : User.t -> option string -> bool;
  (** the user model's part of [User.create]: the validation error, or
      the document to store (defaults filled in, password hashed) *)
  newUser : gmap N User.t -> UserInput -> error + User.t;
  (** [uploadOnCloudinary(localPath)]: the hosted url, or [null] *)
  uploadOnCloudinary : option string -> option string;
  (** the runtime's [String.prototype.trim] and
      [String.prototype.toLowerCase], the second of which follows the
      case mappings of Unicode *)
  trim : string -> string;
  toLowerCase : string -> string
}.

(** ** View composition: the shared owner projection *)

Module Profile.
Record t := mk {
  _id : ObjectId;
  fullName : string;
  username : string;
  avatar : string
}.

(** [$project: { fullName: 1, username: 1, avatar: 1 }]; the [_id]
    stays, as in every projection that does not exclude it. *)
Definition project (d : N * User.t) : t :=
  mk d.1 (User.fullName d.2) (User.username d.2) (User.avatar d.2).
End Profile.

(** ** Tweet controller *)

Module TweetRow.
(** One row of the tweet feed; the owner's fields are absent when the
    owner join is empty. *)
Record t := mk {
  _id : ObjectId;
  fullName : option string;
  username : option string;
  avatar : option string;
  content : string;
  likeCount : nat;
  isLiked : bool;
  createdAt : Z
}.
End TweetRow.

Section TweetController.
Context {E : Env}.

(** Stage 1: [$match: { tweetOwner: ObjectId(req.user._id) }] *)
Definition matchTweetOwner (viewer : ObjectId) (st : Store) : list (N * Tweet.t) :=
  find (fun t => Tweet.tweetOwner t = viewer) (tweets st).

(** Stage 2: [$lookup] from users on [tweetOwner = _id], projected. *)
Definition lookupTweetOwner (st : Store) (d : N * Tweet.t) : list Profile.t :=
  lookupFrom (users st) (fun u => u.1 = Tweet.tweetOwner d.2) Profile.project.

(** Stage 3: [$lookup] from likes on [_id = tweet], keeping [_id] and
    [likedBy]. *)
Definition lookupLikeDetails (st : Store) (d : N * Tweet.t) : list (N * N) :=
  lookupFrom (likes st) (fun l => Like.tweet l.2 = Some d.1)
         (fun l => (l.1, Like.likedBy l.2)).

(** Stages 4 to 6: [$first] of the owner array, [$size] of the likes,
    [$in] of the viewer among [likeDetails.likedBy], the owner's fields
    lifted to the row, and the final projection. *)
Definition tweetRow (viewer : ObjectId) (st : Store) (d : N * Tweet.t) : TweetRow.t :=
  let tweetOwner := head (lookupTweetOwner st d) in
  let likeDetails := lookupLikeDetails st d in
  TweetRow.mk d.1
    (Profile.fullName <$> tweetOwner)
    (Profile.username <$> tweetOwner)
    (Profile.avatar <$> tweetOwner)
    (Tweet.content d.2)
    (length likeDetails)
    (bool_decide (viewer ∈ likeDetails.*2))
    (Tweet.createdAt d.2).

(** The aggregation of [getUserTweets]. *)
Definition userTweetsPipeline (viewer : ObjectId) (st : Store) : list TweetRow.t :=
  tweetRow viewer st <$> matchTweetOwner viewer st.

(** [getUserTweets]: the response is built with [new ApiResponce(..)],
    a name that is not bound in the module, so evaluating it throws. *)
Definition getUserTweets (viewer : ObjectId) (st : Store) : outcome (list TweetRow.t) :=
  let tweets := userTweetsPipeline viewer st in
  if negb (JS.truthy JS.Object) (* !tweets *)
  then Thrown (ApiError 500 "Something went wrong while fetching ")
  else Thrown (RuntimeError "ReferenceError" "ApiResponce is not defined").

(** [updateTweet]: the payload of the success response is the handler
    [updateTweet] itself, a function value. *)
Definition updateTweet (viewer : ObjectId) (tweetId : string)
  (content : option string) (st : Store) : outcome JS.value * Store :=
  if negb (isValidObjectId tweetId)
  then (Thrown (ApiError 400 "Invalid tweet id.."), st)
  else
    match castObjectId tweetId with
    | None => (Thrown (RuntimeError "CastError" "Cast to ObjectId failed"), st)
    | Some id =>
        match findById (tweets st) id with
        | None => (Thrown (ApiError 404 " Tweet not foun.."), st)
        | Some tweet =>
            if negb (bool_decide (Tweet.tweetOwner tweet = viewer))
            then (Thrown (ApiError 404 "You are not authorized to update this tweet.."), st)
            else
              match content with
              | None => (Thrown (ApiError 404 "Tweet content required.."), st)
              | Some content =>
                  if negb (JS.truthy (JS.Str content))
                  then (Thrown (ApiError 404 "Tweet content required.."), st)
                  else
                    let updatedContent :=
                      if JS.truthy (JS.Str (trim content))
                      then content else Tweet.content tweet in
                    let '(updatedTweet, c) :=
                      findByIdAndUpdate id (Tweet.setContent updatedContent) (tweets st) in
                    if negb (JS.truthy (JS.of_doc updatedTweet))
                    then (Thrown (ApiError 500 "Something went wrong while updating tweet.."),
                          withTweets c st)
                    else (respond 200
                            (newApiResponse 200 JS.Function "Tweet Updated Successfully..."),
                          withTweets c st)
              end
        end
    end.

Definition deleteTweet (viewer : ObjectId) (tweetId : string) (st : Store)
  : outcome (option Tweet.t) * Store :=
  if negb (isValidObjectId tweetId)
  then (Thrown (ApiError 400 "Invalid tweet id.."), st)
  else
    match castObjectId tweetId with
    | None => (Thrown (RuntimeError "CastError" "Cast to ObjectId failed"), st)
    | Some id =>
        match findById (tweets st) id with
        | None => (Thrown (ApiError 404 "Tweet not found.."), st)
        | Some tweet =>
            if negb (bool_decide (Tweet.tweetOwner tweet = viewer))
            then (Thrown (ApiError 403 "You are not authorized to delete this tweet.."), st)
            else
              let '(deletedTweet, c) := findByIdAndDelete id (tweets st) in
              if negb (JS.truthy (JS.of_doc deletedTweet))
              then (Thrown (ApiError 500 "Something went wrong while deleting tweet.."),
                    withTweets c st)
              else (respond 200
                      (newApiResponse 200 deletedTweet "Tweet deleted successfully.."),
                    withTweets c st)
        end
    end.

End TweetController.

(** ** Subscription controller *)

Module SubscriptionRow.
(** A subscription document with the joined [subscriberInfo]. *)
Record t := mk {
  _id : ObjectId;
  subscriber : ObjectId;
  channel : ObjectId;
  subscriberInfo : option Profile.t
}.
End SubscriptionRow.

(** The payload of a toggle: the text given in the data position when
    unsubscribing, the created edge when subscribing. *)
Inductive toggleData :=
| UnsubscribedText (text : string)
| NewSubscriber (d : N * Subscription.t).

Section SubscriptionController.
Context {E : Env}.

(** The filter [{ subscriber, channel }] of the toggle. *)
Definition isEdge (subscriber channel : ObjectId) (e : Subscription.t) : Prop :=
  Subscription.subscriber e = subscriber /\ Subscription.channel e = channel.

#[global] Instance isEdge_dec subscriber channel e : Decision (isEdge subscriber channel e).
Proof. unfold isEdge. apply _. Defined.

(** [toggleSubscription] after its first guard: find the edge, delete it
    if it is there, create it if not. *)
Definition toggleEdge (viewer : ObjectId) (channelId : string) (st : Store)
  : outcome toggleData * Store :=
  match castObjectId channelId with
  | None => (Thrown (RuntimeError "CastError" "Cast to ObjectId failed"), st)
  | Some channel =>
      let alreadySubscribed := findOne (isEdge viewer channel) (subscriptions st) in
      match alreadySubscribed with
      | Some d =>
          let '(_, c) := findByIdAndDelete d.1 (subscriptions st) in
          (respond 200
             (newApiResponse 200 (UnsubscribedText "Unscribed from channerl") defaultMessage),
           withSubscriptions c st)
      | None =>
          let '(newSubscriber, c) :=
            create (Subscription.mk viewer channel) (subscriptions st) in
          if negb (JS.truthy (JS.of_doc (Some newSubscriber)))
          then (Thrown (ApiError 500 "Unable to subscribe to channel"), withSubscriptions c st)
          else (respond 200
                  (newApiResponse 200 (NewSubscriber newSubscriber)
                     "Successfully subscribed to channel"),
                withSubscriptions c st)
      end
  end.

(** [toggleSubscription]: the first guard is [if (!isValidObjectId)],
    the negation of the imported function value. *)
Definition toggleSubscription (viewer : ObjectId) (channelId : string) (st : Store)
  : outcome toggleData * Store :=
  if negb (JS.truthy JS.Function)
  then (Thrown (ApiError 400 "Invalid Channel id.."), st)
  else toggleEdge viewer channelId st.

(** [$lookup] from users with [localField: "subscriber"], then [$first]. *)
Definition subscriberInfoRow (st : Store) (d : N * Subscription.t) : SubscriptionRow.t :=
  let subscriberInfo :=
    lookupFrom (users st) (fun u => u.1 = Subscription.subscriber d.2) Profile.project in
  SubscriptionRow.mk d.1 (Subscription.subscriber d.2) (Subscription.channel d.2)
    (head subscriberInfo).


(** The aggregation of [getSubscribedChannels]: the viewer's edges,
    joined to users on the [subscriber] field. *)
Definition subscribedChannelsPipeline (viewer : ObjectId) (st : Store)
  : list SubscriptionRow.t :=
  subscriberInfoRow st <$>
    find (fun e => Subscription.subscriber e = viewer) (subscriptions st).

Definition getSubscribedChannels (viewer : ObjectId) (st : Store)
  : outcome (list SubscriptionRow.t) :=
  let channelList := subscribedChannelsPipeline viewer st in
  if negb (JS.truthy JS.Object)
  then Thrown (ApiError 500 "Something went wrong while fetching.")
  else respond 200 (newApiResponse 200 channelList "Successfully fatched channel list").

End SubscriptionController.

(** ** User controller *)

Module TokenPair.
(** The payload [{accessToken, refreshToken}] of login and refresh;
    a component is [None] when the value placed there is [undefined]. *)
Record t := mk {
  accessToken : option string;
  refreshToken : option string
}.
End TokenPair.

Module SafeUser.
(** A user selected with ["-password -refreshToken"]. *)
Record t := mk {
  _id : ObjectId;
  fullName : string;
  username : string;
  email : string;
  avatar : string;
  coverImage : string;
  watchHistory : list ObjectId
}.

Definition select (d : N * User.t) : t :=
  mk d.1 (User.fullName d.2) (User.username d.2) (User.email d.2)
     (User.avatar d.2) (User.coverImage d.2) (User.watchHistory d.2).
End SafeUser.

Module ChannelProfile.
Record t := mk {
  _id : ObjectId;
  fullName : string;
  username : string;
  subscribersCount : nat;
  channelsSubscribedToCount : nat;
  isSubscribed : bool;
  avatar : string;
  coverImage : string;
  email : string
}.
End ChannelProfile.

Module VideoRow.
(** A video of the watch history with its owner replaced by the
    owner's projection (absent when the join is empty). *)
Record t := mk {
  _id : ObjectId;
  owner : option Profile.t;
  details : string
}.
End VideoRow.

Module WatchHistoryUser.
(** A row of the watch-history aggregation: the matched user record with
    every field it is stored with (the aggregation has no projection at
    its top level), and the [watchHistory] field replaced by the joined
    videos. *)
Record t := mk {
  _id : ObjectId;
  fullName : string;
  username : string;
  email : string;
  password : string;
  avatar : string;
  coverImage : string;
  refreshToken : option string;
  watchHistory : list VideoRow.t
}.
End WatchHistoryUser.

(** The body of a registration request. *)
Record RegisterBody := mkRegisterBody {
  body_fullName : option string;
  body_email : option string;
  body_username : option string;
  body_password : option string
}.

(** [a || b] on request fields. *)
Definition orElse (a b : option string) : option string :=
  if JS.truthy (JS.of_field a) then a else b.

(** A query condition [{ field: value }] whose value may be [undefined]:
    stored fields are strings, so an undefined value matches none. *)
Definition fieldIs (value : option string) (stored : string) : Prop :=
  value = Some stored.

#[global] Instance fieldIs_dec value stored : Decision (fieldIs value stored).
Proof. unfold fieldIs. apply _. Defined.

(** [try { .. } catch (error) { throw new ApiError(401, error?.message ||
    "Invalid refresh token") }] *)
Definition rethrowUnauthorized {D} (r : outcome D * Store) : outcome D * Store :=
  match r.1 with
  | Thrown e =>
      (Thrown (ApiError 401
                 (if JS.truthy (JS.Str (error_message e)) then error_message e
                  else "Invalid refresh token")),
       r.2)
  | Sent _ => r
  end.

Section UserController.
Context {E : Env}.

(** [generateAccessAndRefereshTokens]: the returned object has the
    properties [accessToken] and [refreshToken]. Every error inside is
    rethrown as a 500. *)
Definition generateAccessAndRefereshTokens (now : Z) (userId : ObjectId) (st : Store)
  : (error + gmap string string) * Store :=
  match findById (users st) userId with
  | None =>
      (inl (ApiError 500 "Something went wrong while generating referesh and access token"),
       st)
  | Some user =>
      let accessToken := generateAccessToken now userId user in
      let refreshToken := generateRefreshToken now userId user in
      let user := User.setRefreshToken (Some refreshToken) user in
      (inr (<["accessToken" := accessToken]> (<["refreshToken" := refreshToken]> ∅)),
       withUsers (<[userId := user]> (users st)) st)
  end.

(** [req.files?.avatar[0]?.path]: reading index 0 of a missing [avatar]
    property throws. *)
Definition avatarLocalPath (files : option (gmap string (list string)))
  : error + option string :=
  match files with
  | None => inr None
  | Some files =>
      match files !! "avatar" with
      | None => inl (RuntimeError "TypeError"
                       "Cannot read properties of undefined (reading '0')")
      | Some avatar => inr (head avatar)
      end
  end.

(** The guarded read of the cover image path. *)
Definition coverImageLocalPath (files : option (gmap string (list string)))
  : option string :=
  match files with
  | None => None
  | Some files =>
      match files !! "coverImage" with
      | Some (path :: _) => Some path
      | _ => None
      end
  end.

(** [registerUser]; [req.files] maps a field name to the paths of the
    files uploaded under it. *)
Definition registerUser (body : RegisterBody)
  (files : option (gmap string (list string))) (st : Store)
  : outcome (option SafeUser.t) * Store :=
  let blank (field : option string) :=
    bool_decide (trim <$> field = Some EmptyString) in
  if existsb blank
       [body_fullName body; body_email body; body_username body; body_password body]
  then (Thrown (ApiError 400 "All fields are required"), st)
  else
    let existedUser :=
      findOne (fun u => fieldIs (body_username body) (User.username u)
                        \/ fieldIs (body_email body) (User.email u)) (users st) in
    if JS.truthy (JS.of_doc existedUser)
    then (Thrown (ApiError 409 "User with email or username already exists"), st)
    else
      match avatarLocalPath files with
      | inl e => (Thrown e, st)
      | inr avatarLocalPath =>
          let coverImageLocalPath := coverImageLocalPath files in
          if negb (JS.truthy (JS.of_field avatarLocalPath))
          then (Thrown (ApiError 400 "Avatar file is required"), st)
          else
            let avatar := uploadOnCloudinary avatarLocalPath in
            let coverImage := uploadOnCloudinary coverImageLocalPath in
            match avatar with
            | None => (Thrown (ApiError 400 "Avatar file is required"), st)
            | Some avatarUrl =>
                match body_username body with
                | None =>
                    (Thrown (RuntimeError "TypeError"
                               "Cannot read properties of undefined (reading 'toLowerCase')"),
                     st)
                | Some username =>
                    let input :=
                      mkUserInput (body_fullName body) avatarUrl
                        (default EmptyString (orElse coverImage (Some EmptyString)))
                        (body_email body) (body_password body)
                        (toLowerCase username) in
                    match newUser (users st) input with
                    | inl e => (Thrown e, st)
                    | inr doc =>
                        let '(user, c) := create doc (users st) in
                        let st := withUsers c st in
                        let createdUser :=
                          (fun u => SafeUser.select (user.1, u))
                            <$> findById (users st) user.1 in
                        if negb (JS.truthy (JS.of_doc createdUser))
                        then (Thrown (ApiError 500
                                        "Something went wrong while registering the user"),
                              st)
                        else (respond 201
                                (newApiResponse 200 createdUser
                                   "User registered Successfully"),
                              st)
                    end
                end
            end
      end.

(** [loginUser] *)
Definition loginUser (now : Z) (email username password : option string) (st : Store)
  : outcome (option SafeUser.t * TokenPair.t) * Store :=
  if negb (JS.truthy (JS.of_field username)) && negb (JS.truthy (JS.of_field email))
  then (Thrown (ApiError 400 "username or email is required"), st)
  else
    match findOne (fun u => fieldIs username (User.username u)
                            \/ fieldIs email (User.email u)) (users st) with
    | None => (Thrown (ApiError 404 "User does not exist"), st)
    | Some user =>
        if negb (isPasswordCorrect user.2 password)
        then (Thrown (ApiError 401 "Invalid user credentials"), st)
        else
          match generateAccessAndRefereshTokens now user.1 st with
          | (inl e, st) => (Thrown e, st)
          | (inr tokens, st) =>
              let accessToken := tokens !! "accessToken" in
              let refreshToken := tokens !! "refreshToken" in
              let loggedInUser :=
                (fun u => SafeUser.select (user.1, u)) <$> findById (users st) user.1 in
              (Sent (mkResponse 200
                       [("accessToken", accessToken); ("refreshToken", refreshToken)] []
                       (newApiResponse 200
                          (loggedInUser, TokenPair.mk accessToken refreshToken)
                          "User logged In Successfully")),
               st)
          end
    end.

(** [logoutUser]: [$unset] of the stored refresh token. *)
Definition logoutUser (viewer : ObjectId) (st : Store) : outcome unit * Store :=
  let '(_, c) := findByIdAndUpdate viewer (User.setRefreshToken None) (users st) in
  (Sent (mkResponse 200 [] ["accessToken"; "refreshToken"]
           (newApiResponse 200 tt "User logged Out")),
   withUsers c st).

(** The [try] block of [refreshAccessToken]. The token helper's result
    is destructured as [{accessToken, newRefreshToken}]. *)
Definition rotate (now : Z) (incomingRefreshToken : string) (st : Store)
  : outcome TokenPair.t * Store :=
  match jwtVerify incomingRefreshToken with
  | inl msg => (Thrown (RuntimeError "JsonWebTokenError" msg), st)
  | inr decodedId =>
      let found :=
        match decodedId with
        | None => inr None
        | Some s =>
            match castObjectId s with
            | None => inl (RuntimeError "CastError" "Cast to ObjectId failed")
            | Some id => inr ((fun u => (id, u)) <$> findById (users st) id)
            end
        end in
      match found with
      | inl e => (Thrown e, st)
      | inr None => (Thrown (ApiError 401 "Invalid refresh token"), st)
      | inr (Some user) =>
          if negb (bool_decide (Some incomingRefreshToken = User.refreshToken user.2))
          then (Thrown (ApiError 401 "Refresh token is expired or used"), st)
          else
            match generateAccessAndRefereshTokens now user.1 st with
            | (inl e, st) => (Thrown e, st)
            | (inr tokens, st) =>
                let accessToken := tokens !! "accessToken" in
                let newRefreshToken := tokens !! "newRefreshToken" in
                (Sent (mkResponse 200
                         [("accessToken", accessToken); ("refreshToken", newRefreshToken)] []
                         (newApiResponse 200
                            (TokenPair.mk accessToken newRefreshToken)
                            "Access token refreshed")),
                 st)
            end
      end
  end.

(** [refreshAccessToken]: the token comes from the cookie or, failing
    that, from the body. *)
Definition refreshAccessToken (now : Z) (cookieToken bodyToken : option string)
  (st : Store) : outcome TokenPair.t * Store :=
  match orElse cookieToken bodyToken with
  | None => (Thrown (ApiError 401 "unauthorized request"), st)
  | Some incomingRefreshToken =>
      if negb (JS.truthy (JS.Str incomingRefreshToken))
      then (Thrown (ApiError 401 "unauthorized request"), st)
      else rethrowUnauthorized (rotate now incomingRefreshToken st)
  end.

(** The stages of the channel profile after [$match]: both lookups into
    subscriptions, [$size] of each, [$in] of the viewer among
    [subscribers.subscriber], and the projection. *)
Definition channelProfileRow (viewer : ObjectId) (st : Store) (d : N * User.t)
  : ChannelProfile.t :=
  let subscribers :=
    lookupFrom (subscriptions st) (fun e => Subscription.channel e.2 = d.1) id in
  let subscribedTo :=
    lookupFrom (subscriptions st) (fun e => Subscription.subscriber e.2 = d.1) id in
  ChannelProfile.mk d.1 (User.fullName d.2) (User.username d.2)
    (length subscribers) (length subscribedTo)
    (bool_decide (viewer ∈ (fun e : N * Subscription.t => Subscription.subscriber e.2)
                              <$> subscribers))
    (User.avatar d.2) (User.coverImage d.2) (User.email d.2).

Definition channelProfilePipeline (viewer : ObjectId) (username : string) (st : Store)
  : list ChannelProfile.t :=
  channelProfileRow viewer st <$>
    find (fun u => User.username u = toLowerCase username) (users st).

Definition getUserChannelProfile (viewer : ObjectId) (username : option string)
  (st : Store) : outcome ChannelProfile.t :=
  match username with
  | None => Thrown (ApiError 400 "username is missing")
  | Some username =>
      if negb (JS.truthy (JS.Str (trim username)))
      then Thrown (ApiError 400 "username is missing")
      else
        match channelProfilePipeline viewer username st with
        | [] => Thrown (ApiError 404 "channel does not exists")
        | channel0 :: _ =>
            respond 200 (newApiResponse 200 channel0 "User channel fetched successfully")
        end
  end.

(** The sub-pipeline of the watch history: the owner join and [$first]. *)
Definition videoRow (st : Store) (v : N * Video.t) : VideoRow.t :=
  let owner := lookupFrom (users st) (fun u => u.1 = Video.owner v.2) Profile.project in
  VideoRow.mk v.1 (head owner) (Video.details v.2).

(** [$match] on the viewer's [_id], then [$lookup] from videos on
    [watchHistory = _id], written over the [watchHistory] field: one row
    per matched user, with the enriched videos. *)
Definition watchHistoryPipeline (viewer : ObjectId) (st : Store)
  : list WatchHistoryUser.t :=
  (fun d : N * User.t =>
     WatchHistoryUser.mk d.1 (User.fullName d.2) (User.username d.2)
       (User.email d.2) (User.password d.2) (User.avatar d.2)
       (User.coverImage d.2) (User.refreshToken d.2)
       (lookupFrom (videos st) (fun v => v.1 ∈ User.watchHistory d.2)
          (videoRow st)))
    <$> filter (fun d => d.1 = viewer) (documents (users st)).

(** [getWatchHistory]: reads [user[0].watchHistory]. *)
Definition getWatchHistory (viewer : ObjectId) (st : Store) : outcome (list VideoRow.t) :=
  match watchHistoryPipeline viewer st with
  | [] => Thrown (RuntimeError "TypeError"
                    "Cannot read properties of undefined (reading 'watchHistory')")
  | user0 :: _ =>
      respond 200
        (newApiResponse 200 (WatchHistoryUser.watchHistory user0)
           "Watch history fetched successfully")
  end.

End UserController.

(** ** The remaining handlers of the tweet and user controllers *)

(** Parts of the tweet and user models that these handlers run into. *)
Class ModelHooks := {
  (** [Tweet.create] given no content: the validation error, or the
      document that is stored *)
  tweetWithoutContent : ObjectId -> Z -> error + Tweet.t;
  (** what [user.save()] stores for the password assigned to the record *)
  savedPassword : option string -> string
}.

(** [user.password = p] *)
Definition setPassword (p : string) (u : User.t) : User.t :=
  User.mk (User.fullName u) (User.username u) (User.email u) p (User.avatar u)
    (User.coverImage u) (User.refreshToken u) (User.watchHistory u).

(** [$set: { fullName, email }] *)
Definition setProfile (fullName email : string) (u : User.t) : User.t :=
  User.mk fullName (User.username u) email (User.password u) (User.avatar u)
    (User.coverImage u) (User.refreshToken u) (User.watchHistory u).

(** [$set: { avatar }] *)
Definition setAvatar (url : string) (u : User.t) : User.t :=
  User.mk (User.fullName u) (User.username u) (User.email u) (User.password u) url
    (User.coverImage u) (User.refreshToken u) (User.watchHistory u).

(** [$set: { coverImage }] *)
Definition setCoverImage (url : string) (u : User.t) : User.t :=
  User.mk (User.fullName u) (User.username u) (User.email u) (User.password u)
    (User.avatar u) url (User.refreshToken u) (User.watchHistory u).

Module AccountUser.
(** A user selected with ["-password"]: every other field stays. *)
Record t := mk {
  _id : ObjectId;
  fullName : string;
  username : string;
  email : string;
  avatar : string;
  coverImage : string;
  refreshToken : option string;
  watchHistory : list ObjectId
}.

Definition select (d : N * User.t) : t :=
  mk d.1 (User.fullName d.2) (User.username d.2) (User.email d.2)
     (User.avatar d.2) (User.coverImage d.2) (User.refreshToken d.2)
     (User.watchHistory d.2).
End AccountUser.

Section RemainingHandlers.
Context {E : Env} {M : ModelHooks}.

(** [createTweet]: only the empty string is refused; the guard after the
    creation tests the handler [createTweet] itself. *)
Definition createTweet (now : Z) (viewer : ObjectId) (content : option string)
  (st : Store) : outcome (N * Tweet.t) * Store :=
  if bool_decide (content = Some EmptyString)
  then (Thrown (ApiError 400 "Tweet content required.."), st)
  else
    let document :=
      match content with
      | Some content => inr (Tweet.mk content viewer now)
      | None => tweetWithoutContent viewer now
      end in
    match document with
    | inl e => (Thrown e, st)
    | inr document =>
        let '(createdTweet, c) := create document (tweets st) in
        if negb (JS.truthy JS.Function)
        then (Thrown (ApiError 500 "Something went wrong while creating tweet.."),
              withTweets c st)
        else (respond 200
                (newApiResponse 200 createdTweet "Tweet Posted Succesfully.."),
              withTweets c st)
    end.

(** [changeCurrentPassword] *)
Definition changeCurrentPassword (viewer : ObjectId)
  (oldPassword newPassword : option string) (st : Store) : outcome unit * Store :=
  match findById (users st) viewer with
  | None =>
      (Thrown (RuntimeError "TypeError"
                 "Cannot read properties of null (reading 'isPasswordCorrect')"),
       st)
  | Some user =>
      if negb (isPasswordCorrect user oldPassword)
      then (Thrown (ApiError 400 "Invalid old password"), st)
      else
        let user := setPassword (savedPassword newPassword) user in
        (respond 200 (newApiResponse 200 tt "Password changed successfully"),
         withUsers (<[viewer := user]> (users st)) st)
  end.

(** [updateAccountDetails]: the updated record is selected with
    ["-password"]. *)
Definition updateAccountDetails (viewer : ObjectId) (fullName email : option string)
  (st : Store) : outcome (option AccountUser.t) * Store :=
  if negb (JS.truthy (JS.of_field fullName)) || negb (JS.truthy (JS.of_field email))
  then (Thrown (ApiError 400 "All fields are required"), st)
  else
    match fullName, email with
    | Some fullName, Some email =>
        let '(user, c) :=
          findByIdAndUpdate viewer (setProfile fullName email) (users st) in
        (respond 200
           (newApiResponse 200 ((fun u => AccountUser.select (viewer, u)) <$> user)
              "Account details updated successfully"),
         withUsers c st)
    | _, _ => (Thrown (ApiError 400 "All fields are required"), st)
    end.

(** [updateUserAvatar]: after the update the handler calls
    [deletefromCloudinary], a name that is not bound in the module. *)
Definition updateUserAvatar (viewer : ObjectId) (filePath : option string)
  (st : Store) : outcome (option AccountUser.t) * Store :=
  if negb (JS.truthy (JS.of_field filePath))
  then (Thrown (ApiError 400 "Avatar file is missing"), st)
  else
    match uploadOnCloudinary filePath with
    | None =>
        (Thrown (RuntimeError "TypeError"
                   "Cannot read properties of null (reading 'url')"), st)
    | Some url =>
        if negb (JS.truthy (JS.Str url))
        then (Thrown (ApiError 400 "Error while uploading on avatar"), st)
        else
          let '(user, c) := findByIdAndUpdate viewer (setAvatar url) (users st) in
          (Thrown (RuntimeError "ReferenceError" "deletefromCloudinary is not defined"),
           withUsers c st)
    end.

(** [updateUserCoverImage] *)
Definition updateUserCoverImage (viewer : ObjectId) (filePath : option string)
  (st : Store) : outcome (option AccountUser.t) * Store :=
  if negb (JS.truthy (JS.of_field filePath))
  then (Thrown (ApiError 400 "Cover image file is missing"), st)
  else
    match uploadOnCloudinary filePath with
    | None =>
        (Thrown (RuntimeError "TypeError"
                   "Cannot read properties of null (reading 'url')"), st)
    | Some url =>
        if negb (JS.truthy (JS.Str url))
        then (Thrown (ApiError 400 "Error while uploading on avatar"), st)
        else
          let '(user, c) := findByIdAndUpdate viewer (setCoverImage url) (users st) in
          (respond 200
             (newApiResponse 200 ((fun u => AccountUser.select (viewer, u)) <$> user)
                "Cover image updated successfully"),
           withUsers c st)
    end.

End RemainingHandlers.

(** ** Properties of store states used in the statements *)

(** An edge from [subscriber] to [channel] is stored. *)
Definition edgeExists (subscriber channel : ObjectId) (st : Store) : Prop :=
  exists k e, subscriptions st !! k = Some e /\ isEdge subscriber channel e.

(** The data model's invariant for one pair: at most one stored edge. *)
Definition atMostOneEdge (subscriber channel : ObjectId) (st : Store) : Prop :=
  forall k1 k2 e1 e2,
    subscriptions st !! k1 = Some e1 -> subscriptions st !! k2 = Some e2 ->
    isEdge subscriber channel e1 -> isEdge subscriber channel e2 -> k1 = k2.

(** The toggle answered with the created edge, respectively with the
    unsubscribe text. *)
Definition createdEdge (o : outcome toggleData) : Prop :=
  exists r d, o = Sent r /\ status r = 200%Z /\ data (json r) = NewSubscriber d.

Definition deletedEdge (o : outcome toggleData) : Prop :=
  exists r text, o = Sent r /\ status r = 200%Z /\ data (json r) = UnsubscribedText text.

(** A user record with its credential and email fields blanked. *)
Definition publicPart (u : User.t) : User.t :=
  User.mk (User.fullName u) (User.username u) EmptyString EmptyString
    (User.avatar u) (User.coverImage u) None (User.watchHistory u).

(** Two stores that differ at most in the password, refresh token and
    email of their users. *)
Definition sameUpToCredentials (st1 st2 : Store) : Prop :=
  publicPart <$> users st1 = publicPart <$> users st2
  /\ tweets st1 = tweets st2
  /\ likes st1 = likes st2
  /\ subscriptions st1 = subscriptions st2
  /\ videos st1 = videos st2.

(** Two stores that differ at most in what [erase] blanks in the user
    records. *)
Definition sameUsersUpTo (erase : User.t -> User.t) (st1 st2 : Store) : Prop :=
  erase <$> users st1 = erase <$> users st2
  /\ tweets st1 = tweets st2
  /\ likes st1 = likes st2
  /\ subscriptions st1 = subscriptions st2
  /\ videos st1 = videos st2.

(** ** A concrete environment and concrete stores *)

Module Demo.

Definition hexDigit (c : ascii) : option N :=
  let n := N_of_ascii c in
  if ((48 <=? n) && (n <=? 57))%N then Some (n - 48)%N
  else if ((97 <=? n) && (n <=? 102))%N then Some (n - 87)%N
  else if ((65 <=? n) && (n <=? 70))%N then Some (n - 55)%N
  else None.

Fixpoint parseHex (acc : N) (s : string) : option N :=
  match s with
  | EmptyString => Some acc
  | String c s' =>
      match hexDigit c with
      | Some d => parseHex (16 * acc + d)%N s'
      | None => None
      end
  end.

(** Identities are written as 24 hexadecimal digits. *)
Definition cast (s : string) : option N :=
  if (String.length s =? 24)%nat then parseHex 0%N s else None.

Definition id1 : string := "000000000000000000000001".
Definition id2 : string := "000000000000000000000002".
Definition tweetId10 : string := "00000000000000000000000a".

(** Refresh tokens name their subject after the prefix. *)
Definition verify (token : string) : string + option string :=
  if String.prefix "refresh-1-" token then inr (Some id1)
  else if String.prefix "refresh-2-" token then inr (Some id2)
  else inl "jwt malformed".

Definition refreshTokenOf (now : Z) (id : N) (u : User.t) : string :=
  (if bool_decide (id = 1%N) then "refresh-1-" else "refresh-2-")
    ++ (if bool_decide (now = 0%Z) then "t0" else "t1").

Definition accessTokenOf (now : Z) (id : N) (u : User.t) : string :=
  "access-" ++ User.username u ++ (if bool_decide (now = 0%Z) then "-t0" else "-t1").

Definition makeUser (users : gmap N User.t) (i : UserInput) : error + User.t :=
  match in_fullName i, in_email i, in_password i with
  | Some fullName, Some email, Some password =>
      inr (User.mk fullName (in_username i) email ("hash:" ++ password)
             (in_avatar i) (in_coverImage i) None [])
  | _, _, _ => inl (RuntimeError "ValidationError" "User validation failed")
  end.

(** The upload succeeds for every path but ["/tmp/broken.png"]. *)
Definition upload (path : option string) : option string :=
  match path with
  | None => None
  | Some p =>
      if bool_decide (p = "/tmp/broken.png") then None
      else Some ("https://media.example/" ++ p)
  end.

(** Lower-casing for the examples: the ASCII letters, and the letters
    of the Latin-1 supplement (C3 80 to C3 9E but for C3 97, the
    multiplication sign). *)
Definition lowerByte (c : ascii) : ascii :=
  let n := nat_of_ascii c in
  if ((65 <=? n) && (n <=? 90))%nat then ascii_of_nat (n + 32) else c.

Definition lowerLatin1 (c : ascii) : ascii :=
  let n := nat_of_ascii c in
  if ((128 <=? n) && (n <=? 158) && negb (n =? 151))%nat
  then ascii_of_nat (n + 32) else c.

Fixpoint lowerCase (s : string) : string :=
  match s with
  | EmptyString => EmptyString
  | String c1 s1 =>
      if (nat_of_ascii c1 =? 195)%nat
      then match s1 with
           | EmptyString => s
           | String c2 s2 => String c1 (String (lowerLatin1 c2) (lowerCase s2))
           end
      else String (lowerByte c1) (lowerCase s1)
  end.

#[export] Instance env : Env := {|
  isValidObjectId s := bool_decide (is_Some (cast s));
  castObjectId := cast;
  jwtVerify := verify;
  generateAccessToken := accessTokenOf;
  generateRefreshToken := refreshTokenOf;
  isPasswordCorrect u p := bool_decide (p = Some (User.password u));
  newUser := makeUser;
  uploadOnCloudinary := upload;
  trim := JS.trim;
  toLowerCase := lowerCase
|}.

Definition ada : User.t :=
  User.mk "Ada Lovelace" "ada" "ada@x.com" "hash:secret" "ada.png" EmptyString
    (Some "refresh-1-t0") [20%N].
Definition bob : User.t :=
  User.mk "Bob" "bob" "bob@x.com" "hash:hunter2" "bob.png" EmptyString None [].

(** Ada with other credentials and another email address. *)
Definition ada' : User.t :=
  User.mk "Ada Lovelace" "ada" "countess@x.com" "hash:other" "ada.png" EmptyString
    None [20%N].

Definition people : gmap N User.t := <[1%N := ada]> (<[2%N := bob]> ∅).

(** Ada subscribed to Bob; Bob owns tweet 10, liked by Ada. *)
Definition store : Store :=
  mkStore people
    (<[10%N := Tweet.mk "hello" 2%N 100%Z]> ∅)
    (<[30%N := Like.mk (Some 10%N) 1%N]> ∅)
    (<[40%N := Subscription.mk 1%N 2%N]> ∅)
    (<[20%N := Video.mk 2%N "clip"]> ∅).

(** Bob with other credentials and another email address. *)
Definition bob' : User.t :=
  User.mk "Bob" "bob" "robert@x.com" "hash:changed" "bob.png" EmptyString
    (Some "refresh-2-t7") [].

(** The store with other credentials and emails for Ada, the viewer of
    the watch history, and for Bob, the owner of the tweet and of the
    video. *)
Definition store' : Store :=
  withUsers (<[1%N := ada']> (<[2%N := bob']> ∅)) store.

Definition emptyStore : Store := mkStore ∅ ∅ ∅ ∅ ∅.

(** The edge from Ada to Bob stored twice. *)
Definition duplicated : Store :=
  withSubscriptions
    (<[40%N := Subscription.mk 1%N 2%N]> (<[41%N := Subscription.mk 1%N 2%N]> ∅))
    store.

Definition registration : RegisterBody :=
  mkRegisterBody (Some "Carol") (Some "carol@x.com") (Some "Carol") (Some "pw").

(** [req.files] of an upload with a cover image and no avatar. *)
Definition coverOnly : gmap string (list string) :=
  <["coverImage" := ["/tmp/cover.png"]]> ∅.

End Demo.

Module DemoHooks.

#[export] Instance hooks : ModelHooks := {|
  tweetWithoutContent _ _ :=
    inl (RuntimeError "ValidationError" "Tweet validation failed");
  savedPassword p := "hash:" ++ default EmptyString p
|}.

(** A registration whose username is white space only. *)
Definition blankRegistration : RegisterBody :=
  mkRegisterBody (Some "Carol") (Some "carol@x.com") (Some "   ") (Some "pw").

(** A registration under Ada's username. *)
Definition takenRegistration : RegisterBody :=
  mkRegisterBody (Some "Ada King") (Some "king@x.com") (Some "ada") (Some "pw").

End DemoHooks.

(** * Facts about the collections *)

Section CollectionFacts.
Context {A : Type}.
Implicit Types (c : gmap N A) (d : N * A).

Lemma elem_of_documents c d : d ∈ documents c <-> c !! d.1 = Some d.2.
Proof. destruct d as [k x]. apply elem_of_map_to_list. Qed.

Lemma elem_of_find (P : A -> Prop) `{!forall x, Decision (P x)} c d :
  d ∈ find P c <-> c !! d.1 = Some d.2 /\ P d.2.
Proof.
  unfold find. rewrite list_elem_of_filter, elem_of_documents. tauto.
Qed.

Lemma findOne_Some (P : A -> Prop) `{!forall x, Decision (P x)} c d :
  findOne P c = Some d -> c !! d.1 = Some d.2 /\ P d.2.
Proof.
  unfold findOne. intros Hhead. apply (proj1 (elem_of_find P c d)).
  destruct (find P c) as [|d' l]; simplify_eq/=. left.
Qed.

Lemma findOne_None (P : A -> Prop) `{!forall x, Decision (P x)} c :
  findOne P c = None -> forall k x, c !! k = Some x -> ~ P x.
Proof.
  unfold findOne. intros Hhead k x Hk HP.
  assert (Hin : (k, x) ∈ find P c) by (apply (proj2 (elem_of_find P c (k, x))); done).
  destruct (find P c); [inversion Hin | discriminate].
Qed.

Lemma findOne_is_Some (P : A -> Prop) `{!forall x, Decision (P x)} c k x :
  c !! k = Some x -> P x -> is_Some (findOne P c).
Proof.
  intros Hk HP. destruct (findOne P c) eqn:Hone; [eauto|].
  exfalso. eapply findOne_None; eauto.
Qed.

(** The identity chosen by [create] lies above every stored one. *)
Lemma newObjectId_above c k x : c !! k = Some x -> (k < newObjectId c)%N.
Proof.
  intros Hk. assert (Hin : (k, x) ∈ documents c) by (apply (proj2 (elem_of_documents c (k, x))); done).
  unfold newObjectId. induction (documents c) as [|d l IH]; [inversion Hin|].
  apply elem_of_cons in Hin as [<- | Hin]; simpl; [lia|].
  specialize (IH Hin). lia.
Qed.

Lemma newObjectId_fresh c : c !! newObjectId c = None.
Proof.
  destruct (c !! newObjectId c) eqn:Hk; [|done].
  apply newObjectId_above in Hk. lia.
Qed.

(** Counting the matching documents of a scan is taking the size of
    the filtered collection. *)
Lemma length_filter_documents (P : N * A -> Prop) `{!forall d, Decision (P d)} c :
  length (filter P (documents c)) = size (filter P c).
Proof.
  rewrite <- length_map_to_list. apply Permutation_length.
  apply NoDup_Permutation.
  - apply NoDup_filter, NoDup_map_to_list.
  - apply NoDup_map_to_list.
  - intros [k x]. rewrite list_elem_of_filter, elem_of_documents.
    rewrite elem_of_map_to_list, map_lookup_filter_Some. simpl. tauto.
Qed.

(** A scan for one identity finds the document stored under it. *)
Lemma filter_key_documents c k :
  filter (fun d => d.1 = k) (documents c)
  = match c !! k with Some x => [(k, x)] | None => [] end.
Proof.
  assert (Hnd : NoDup (filter (fun d : N * A => d.1 = k) (documents c)))
    by apply NoDup_filter, NoDup_map_to_list.
  assert (Hall : forall d, d ∈ filter (fun d : N * A => d.1 = k) (documents c)
                           <-> c !! k = Some d.2 /\ d.1 = k).
  { intros d. rewrite list_elem_of_filter, elem_of_documents.
    split; intros [? ?]; simplify_eq; done. }
  destruct (filter (fun d : N * A => d.1 = k) (documents c)) as [|a [|b l]].
  - destruct (c !! k) as [x|] eqn:Hk; [|done].
    assert (Hin : (k, x) ∈ @nil (N * A)) by (apply Hall; done). inversion Hin.
  - destruct (proj1 (Hall a)) as [Ha1 Ha2]; [left|].
    destruct a as [ka xa]; simpl in *; subst. by rewrite Ha1.
  - exfalso.
    destruct (proj1 (Hall a)) as [Ha1 Ha2]; [left|].
    destruct (proj1 (Hall b)) as [Hb1 Hb2]; [right; left|].
    destruct a as [ka xa], b as [kb xb]; simpl in *; simplify_eq.
    apply NoDup_cons in Hnd as [Hnotin _]. apply Hnotin. left.
Qed.

Lemma lookupFrom_by_key {C} c k (pipeline : N * A -> C) :
  lookupFrom c (fun d => d.1 = k) pipeline
  = match c !! k with Some x => [pipeline (k, x)] | None => [] end.
Proof.
  unfold lookupFrom. rewrite filter_key_documents. by destruct (c !! k).
Qed.

End CollectionFacts.

(** * Token rotation *)

Section TokenRotation.
Context {E : Env}.

Lemma rethrowUnauthorized_thrown {D} (e : error) (st : Store) :
  failsWith Unauthorized (rethrowUnauthorized (D := D) (Thrown e, st)).1
  /\ (rethrowUnauthorized (D := D) (Thrown e, st)).2 = st.
Proof. split; [eexists; reflexivity | reflexivity]. Qed.

(** The object returned by the token helper has no property named
    [newRefreshToken]. *)
Lemma tokens_properties (a r : string) :
  let tokens : gmap string string :=
    <["accessToken" := a]> (<["refreshToken" := r]> ∅) in
  tokens !! "accessToken" = Some a
  /\ tokens !! "refreshToken" = Some r
  /\ tokens !! "newRefreshToken" = None.
Proof.
  simpl. split; [|split].
  - apply lookup_insert_eq.
  - rewrite lookup_insert_ne by done. apply lookup_insert_eq.
  - rewrite !lookup_insert_ne by done. apply lookup_empty.
Qed.

Lemma generateAccessAndRefereshTokens_found now id user st :
  users st !! id = Some user ->
  generateAccessAndRefereshTokens now id st
  = (inr (<["accessToken" := generateAccessToken now id user]>
            (<["refreshToken" := generateRefreshToken now id user]> ∅)),
     withUsers
       (<[id := User.setRefreshToken (Some (generateRefreshToken now id user)) user]>
          (users st)) st).
Proof.
  intros Hu. unfold generateAccessAndRefereshTokens, findById. by rewrite Hu.
Qed.

(** Every failure of the refresh handler is a 401. *)
Lemma refreshAccessToken_failure now cookieToken bodyToken st e :
  (refreshAccessToken now cookieToken bodyToken st).1 = Thrown e ->
  exists msg, e = ApiError Unauthorized msg.
Proof.
  unfold refreshAccessToken.
  destruct (orElse cookieToken bodyToken) as [token|]; [|intros [= <-]; eauto].
  destruct (negb _); [intros [= <-]; eauto|].
  unfold rethrowUnauthorized.
  destruct (rotate now token st) as [[r|e'] st']; simpl; [discriminate|].
  intros [= <-]. eauto.
Qed.

(** What a successful refresh sends and stores: the refresh token
    positions of the response hold [undefined], the record of the
    token's subject holds the token just generated. *)
Lemma refreshAccessToken_sent now cookieToken bodyToken st resp :
  (refreshAccessToken now cookieToken bodyToken st).1 = Sent resp ->
  exists id user,
    users st !! id = Some user
    /\ TokenPair.accessToken (data (json resp)) = Some (generateAccessToken now id user)
    /\ TokenPair.refreshToken (data (json resp)) = None
    /\ cookies resp = [("accessToken", Some (generateAccessToken now id user));
                       ("refreshToken", None)]
    /\ User.refreshToken
         <$> users (refreshAccessToken now cookieToken bodyToken st).2 !! id
       = Some (Some (generateRefreshToken now id user)).
Proof.
  unfold refreshAccessToken.
  destruct (orElse cookieToken bodyToken) as [token|]; [|discriminate].
  destruct (negb _); [discriminate|].
  unfold rotate.
  destruct (jwtVerify token) as [msg|[sub|]]; [discriminate| |discriminate].
  destruct (castObjectId sub) as [id|]; [|discriminate].
  unfold findById. destruct (users st !! id) as [user|] eqn:Hu; [|discriminate].
  simpl. destruct (negb _); [discriminate|].
  rewrite (generateAccessAndRefereshTokens_found now id user st Hu).
  destruct (tokens_properties (generateAccessToken now id user)
              (generateRefreshToken now id user)) as (Ha & _ & Hn).
  simpl in Ha, Hn. rewrite Ha, Hn. simpl. intros [= <-].
  exists id, user. simpl. rewrite lookup_insert_eq. done.
Qed.

(** C1: a rotate request whose refresh token verifies but is not the
    value stored on the claimed user's record fails with Unauthorized;
    nothing is sent and the store, with the stored token, is left as it
    was, whatever the presented token may have been earlier. *)
Theorem refresh_mismatch_unauthorized
  now cookieToken bodyToken token sub id user st :
  orElse cookieToken bodyToken = Some token ->
  jwtVerify token = inr (Some sub) ->
  castObjectId sub = Some id ->
  users st !! id = Some user ->
  User.refreshToken user <> Some token ->
  failsWith Unauthorized (refreshAccessToken now cookieToken bodyToken st).1
  /\ (refreshAccessToken now cookieToken bodyToken st).2 = st.
Proof.
  intros Htoken Hverify Hcast Huser Hstale.
  unfold refreshAccessToken. rewrite Htoken.
  destruct (negb (JS.truthy (JS.Str token))).
  { split; [eexists; reflexivity | reflexivity]. }
  unfold rotate, findById. rewrite Hverify, Hcast, Huser. simpl.
  rewrite bool_decide_eq_false_2 by congruence. simpl.
  split; [eexists; reflexivity | reflexivity].
Qed.

(** The sibling path: a successful login sends the refresh token that it
    stored. *)
Lemma loginUser_sent now email username password st resp :
  (loginUser now email username password st).1 = Sent resp ->
  exists id user,
    users st !! id = Some user
    /\ TokenPair.refreshToken (data (json resp)).2
       = Some (generateRefreshToken now id user)
    /\ cookies resp = [("accessToken", Some (generateAccessToken now id user));
                       ("refreshToken", Some (generateRefreshToken now id user))]
    /\ User.refreshToken <$> users (loginUser now email username password st).2 !! id
       = Some (Some (generateRefreshToken now id user)).
Proof.
  unfold loginUser.
  destruct (negb _ && negb _); [discriminate|].
  destruct (findOne _ (users st)) as [[id user]|] eqn:Hone; [|discriminate].
  apply findOne_Some in Hone as [Hu _]. simpl in Hu |- *.
  destruct (negb (isPasswordCorrect user password)); [discriminate|].
  rewrite (generateAccessAndRefereshTokens_found now id user st Hu).
  destruct (tokens_properties (generateAccessToken now id user)
              (generateRefreshToken now id user)) as (Ha & Hr & _).
  simpl in Ha, Hr. rewrite Ha, Hr. simpl. intros [= <-].
  exists id, user. simpl. rewrite lookup_insert_eq. done.
Qed.

End TokenRotation.

(** * Tweet update and delete *)

Section TweetMutation.
Context {E : Env}.

(** A delete by anyone but the owner is refused with 403 and writes
    nothing. *)
Lemma deleteTweet_non_owner viewer tweetId id tweet st :
  isValidObjectId tweetId = true ->
  castObjectId tweetId = Some id ->
  tweets st !! id = Some tweet ->
  Tweet.tweetOwner tweet <> viewer ->
  failsWith Forbidden (deleteTweet viewer tweetId st).1
  /\ (deleteTweet viewer tweetId st).2 = st.
Proof.
  intros Hvalid Hcast Htweet Howner.
  unfold deleteTweet, findById. rewrite Hvalid, Hcast, Htweet. simpl.
  rewrite bool_decide_eq_false_2 by done. simpl.
  split; [eexists; reflexivity | reflexivity].
Qed.

(** An update by anyone but the owner writes nothing either, but the
    error it throws carries the status 404. *)
Lemma updateTweet_non_owner viewer tweetId content id tweet st :
  isValidObjectId tweetId = true ->
  castObjectId tweetId = Some id ->
  tweets st !! id = Some tweet ->
  Tweet.tweetOwner tweet <> viewer ->
  updateTweet viewer tweetId content st
  = (Thrown (ApiError NotFound "You are not authorized to update this tweet.."), st).
Proof.
  intros Hvalid Hcast Htweet Howner.
  unfold updateTweet, findById. rewrite Hvalid, Hcast, Htweet. simpl.
  by rewrite bool_decide_eq_false_2 by done.
Qed.

(** An update whose content is missing or empty is refused before any
    write. *)
Lemma updateTweet_no_content viewer tweetId content st :
  content = None \/ content = Some EmptyString ->
  (exists e, (updateTweet viewer tweetId content st).1 = Thrown e)
  /\ (updateTweet viewer tweetId content st).2 = st.
Proof.
  intros Hcontent. unfold updateTweet.
  destruct (negb (isValidObjectId tweetId)); [eauto|].
  destruct (castObjectId tweetId) as [id|]; [|eauto].
  destruct (findById (tweets st) id) as [tweet|]; [|eauto].
  destruct (negb (bool_decide _)); [eauto|].
  destruct Hcontent as [-> | ->]; simpl; eauto.
Qed.

(** C6, amended: when the owner updates a tweet with a non-empty
    content whose trimmed form is empty (white space only), the content
    stored for every tweet is what it was and the handler reports
    success. *)
Theorem updateTweet_blank_content viewer tweetId content id tweet st :
  isValidObjectId tweetId = true ->
  castObjectId tweetId = Some id ->
  tweets st !! id = Some tweet ->
  Tweet.tweetOwner tweet = viewer ->
  content <> EmptyString ->
  trim content = EmptyString ->
  succeeds (updateTweet viewer tweetId (Some content) st).1
  /\ forall k,
       Tweet.content <$> tweets (updateTweet viewer tweetId (Some content) st).2 !! k
       = Tweet.content <$> tweets st !! k.
Proof.
  intros Hvalid Hcast Htweet Howner Hnonempty Htrim.
  unfold updateTweet, findById, findByIdAndUpdate.
  rewrite Hvalid, Hcast, Htweet. simpl.
  rewrite bool_decide_eq_true_2 by done. simpl.
  rewrite (bool_decide_eq_false_2 (content = EmptyString)) by done. simpl.
  rewrite Htrim. simpl. split.
  - eexists. split; reflexivity.
  - intros k. rewrite lookup_alter. case_decide as Hk; [|done].
    subst k. by rewrite Htweet.
Qed.

End TweetMutation.

(** * Subscriptions *)

Section SubscriptionToggle.
Context {E : Env}.

Lemma edgeExists_findOne subscriber channel st :
  edgeExists subscriber channel st
  <-> is_Some (findOne (isEdge subscriber channel) (subscriptions st)).
Proof.
  split.
  - intros (k & e & Hk & He). by eapply findOne_is_Some.
  - intros [d Hd]. apply findOne_Some in Hd as [Hk He].
    by exists d.1, d.2.
Qed.

(** The toggle from Absent: the edge is created under a new identity. *)
Lemma toggle_absent viewer channelId channel st :
  castObjectId channelId = Some channel ->
  ~ edgeExists viewer channel st ->
  createdEdge (toggleSubscription viewer channelId st).1
  /\ subscriptions (toggleSubscription viewer channelId st).2
     = <[newObjectId (subscriptions st) := Subscription.mk viewer channel]>
         (subscriptions st).
Proof.
  intros Hcast Habsent. unfold toggleSubscription, toggleEdge. simpl.
  rewrite Hcast.
  destruct (findOne (isEdge viewer channel) (subscriptions st)) as [d|] eqn:Hone.
  { exfalso. apply Habsent, edgeExists_findOne. rewrite Hone. eauto. }
  simpl. split; [|done]. eexists _, _. repeat split.
Qed.

(** The toggle from Present: the edge that the query finds is deleted. *)
Lemma toggle_present viewer channelId channel st d :
  castObjectId channelId = Some channel ->
  findOne (isEdge viewer channel) (subscriptions st) = Some d ->
  deletedEdge (toggleSubscription viewer channelId st).1
  /\ subscriptions (toggleSubscription viewer channelId st).2
     = delete d.1 (subscriptions st).
Proof.
  intros Hcast Hone. unfold toggleSubscription, toggleEdge. simpl.
  rewrite Hcast, Hone. simpl. split; [|done]. eexists _, _. repeat split.
Qed.

(** C4, amended: from a store that holds at most one edge for the pair,
    two toggles in sequence restore the existence of the edge: from
    Absent the first creates it and the second deletes it, from Present
    the first deletes it and the second creates it. *)
Theorem toggle_twice_restores viewer channelId channel st :
  castObjectId channelId = Some channel ->
  atMostOneEdge viewer channel st ->
  let first := toggleSubscription viewer channelId st in
  let second := toggleSubscription viewer channelId first.2 in
  (edgeExists viewer channel second.2 <-> edgeExists viewer channel st)
  /\ (~ edgeExists viewer channel st ->
      createdEdge first.1 /\ edgeExists viewer channel first.2
      /\ deletedEdge second.1)
  /\ (edgeExists viewer channel st ->
      deletedEdge first.1 /\ ~ edgeExists viewer channel first.2
      /\ createdEdge second.1).
Proof.
  intros Hcast Hunique first second.
  destruct (findOne (isEdge viewer channel) (subscriptions st)) as [d|] eqn:Hone.
  - (* Present *)
    assert (Hpresent : edgeExists viewer channel st).
    { apply edgeExists_findOne. rewrite Hone. eauto. }
    destruct (toggle_present viewer channelId channel st d Hcast Hone)
      as [Hdeleted Hsubs1].
    fold first in Hdeleted, Hsubs1.
    destruct (findOne_Some _ _ _ Hone) as [Hd Hedge].
    assert (Habsent1 : ~ edgeExists viewer channel first.2).
    { intros (k & e & Hk & He). rewrite Hsubs1 in Hk.
      apply lookup_delete_Some in Hk as [Hne Hk].
      apply Hne. by eapply Hunique. }
    destruct (toggle_absent viewer channelId channel first.2 Hcast Habsent1)
      as [Hcreated Hsubs2].
    fold second in Hcreated, Hsubs2.
    assert (Hpresent2 : edgeExists viewer channel second.2).
    { eexists _, _. rewrite Hsubs2, lookup_insert_eq. split; [done|]. by split. }
    split; [tauto|]. split; [tauto|]. done.
  - (* Absent *)
    assert (Habsent : ~ edgeExists viewer channel st).
    { rewrite edgeExists_findOne, Hone. by intros [? ?]. }
    destruct (toggle_absent viewer channelId channel st Hcast Habsent)
      as [Hcreated Hsubs1].
    fold first in Hcreated, Hsubs1.
    assert (Hpresent1 : edgeExists viewer channel first.2).
    { eexists _, _. rewrite Hsubs1, lookup_insert_eq. split; [done|]. by split. }
    destruct (proj1 (edgeExists_findOne _ _ _) Hpresent1) as [d' Hone1].
    destruct (toggle_present viewer channelId channel first.2 d' Hcast Hone1)
      as [Hdeleted Hsubs2].
    fold second in Hdeleted, Hsubs2.
    destruct (findOne_Some _ _ _ Hone1) as [Hd' Hedge'].
    assert (Hnew : d'.1 = newObjectId (subscriptions st)).
    { rewrite Hsubs1 in Hd'. apply lookup_insert_Some in Hd' as [[Heq _] | [_ Hd']].
      - done.
      - exfalso. apply Habsent. by exists d'.1, d'.2. }
    assert (Hback : subscriptions second.2 = subscriptions st).
    { rewrite Hsubs2, Hsubs1, Hnew, delete_insert_eq.
      apply delete_id, newObjectId_fresh. }
    assert (Habsent2 : ~ edgeExists viewer channel second.2).
    { unfold edgeExists. by rewrite Hback. }
    split; [tauto|]. split; [done|]. tauto.
Qed.

(** C10: the guard [if (!isValidObjectId)] of the toggle never fires:
    for every channel id, malformed or not, the handler is its
    find/create/delete part, and it never fails with BadRequest. *)
Theorem toggle_guard_unreachable viewer channelId st :
  toggleSubscription viewer channelId st = toggleEdge viewer channelId st
  /\ ~ failsWith BadRequest (toggleSubscription viewer channelId st).1.
Proof.
  split; [reflexivity|].
  unfold toggleSubscription, toggleEdge, failsWith. simpl.
  destruct (castObjectId channelId) as [channel|]; [|intros [? [=]]].
  destruct (findOne _ _) as [d|]; simpl; intros [? [=]].
Qed.

End SubscriptionToggle.

Section SubscriptionInvariant.
Context {E : Env}.

(** Sequential toggles keep the invariant: no pair gets a second edge. *)
Lemma toggle_preserves_atMostOneEdge viewer channelId subscriber channel st :
  atMostOneEdge subscriber channel st ->
  atMostOneEdge subscriber channel (toggleSubscription viewer channelId st).2.
Proof.
  intros Hunique. unfold toggleSubscription, toggleEdge. simpl.
  destruct (castObjectId channelId) as [ch|]; [|done].
  destruct (findOne (isEdge viewer ch) (subscriptions st)) as [d|] eqn:Hone; simpl.
  - intros k1 k2 e1 e2 Hk1 Hk2 He1 He2. cbn in Hk1, Hk2.
    apply lookup_delete_Some in Hk1 as [_ Hk1].
    apply lookup_delete_Some in Hk2 as [_ Hk2].
    by eapply Hunique.
  - assert (Hnone : forall k e, subscriptions st !! k = Some e ->
                                ~ isEdge viewer ch e)
      by exact (findOne_None (isEdge viewer ch) (subscriptions st) Hone).
    intros k1 k2 e1 e2 Hk1 Hk2 He1 He2. cbn in Hk1, Hk2.
    apply lookup_insert_Some in Hk1 as [[<- <-] | [Hne1 Hk1]];
      apply lookup_insert_Some in Hk2 as [[<- <-] | [Hne2 Hk2]].
    + done.
    + exfalso. destruct He1 as [<- <-]. by eapply Hnone.
    + exfalso. destruct He2 as [<- <-]. by eapply Hnone.
    + by eapply Hunique.
Qed.

End SubscriptionInvariant.

Section SubscribedChannels.

(** The list of subscribed channels has one row per edge of the viewer,
    and what each row carries as [subscriberInfo] is the projection of
    the viewer's own record: the join is on the [subscriber] field. *)
Lemma subscribedChannels_rows viewer st :
  length (subscribedChannelsPipeline viewer st)
  = size (filter (fun d : N * Subscription.t => Subscription.subscriber d.2 = viewer)
            (subscriptions st))
  /\ forall row, row ∈ subscribedChannelsPipeline viewer st ->
       subscriptions st !! SubscriptionRow._id row
       = Some (Subscription.mk viewer (SubscriptionRow.channel row))
       /\ SubscriptionRow.subscriberInfo row
          = (fun u => Profile.project (viewer, u)) <$> users st !! viewer.
Proof.
  unfold subscribedChannelsPipeline. split.
  - rewrite length_fmap. unfold find.
    apply (length_filter_documents
             (fun d : N * Subscription.t => Subscription.subscriber d.2 = viewer)).
  - intros row Hrow. apply list_elem_of_fmap in Hrow as (d & -> & Hd).
    apply (proj1 (elem_of_find _ _ d)) in Hd as [Hd Hsub].
    unfold subscriberInfoRow. simpl. rewrite lookupFrom_by_key, Hsub. split.
    + rewrite Hd. f_equal. destruct d as [k [s c]]. simpl in *. by subst.
    + by destruct (users st !! viewer).
Qed.

End SubscribedChannels.

(** * The view composer *)

Section ViewComposer.
Context {E : Env}.

(** The rows of the feed are the rows of the viewer's stored tweets. *)
Lemma elem_of_userTweetsPipeline viewer st row :
  row ∈ userTweetsPipeline viewer st
  <-> exists d, tweets st !! d.1 = Some d.2 /\ Tweet.tweetOwner d.2 = viewer
                /\ row = tweetRow viewer st d.
Proof.
  unfold userTweetsPipeline, matchTweetOwner. rewrite list_elem_of_fmap. split.
  - intros (d & -> & Hd). apply (proj1 (elem_of_find _ _ d)) in Hd as [Hd Ho].
    by exists d.
  - intros (d & Hd & Ho & ->). exists d. split; [done|].
    by apply (proj2 (elem_of_find _ _ d)).
Qed.

(** What [$size] and [$in] derive for one tweet. *)
Lemma tweetRow_likes viewer st d :
  TweetRow.likeCount (tweetRow viewer st d)
  = size (filter (fun l : N * Like.t => Like.tweet l.2 = Some d.1) (likes st))
  /\ (TweetRow.isLiked (tweetRow viewer st d) = true <->
      exists k l, likes st !! k = Some l /\ Like.tweet l = Some d.1
                  /\ Like.likedBy l = viewer).
Proof.
  unfold tweetRow, lookupLikeDetails, lookupFrom. simpl. split.
  - rewrite length_fmap.
    apply (length_filter_documents
             (fun l : N * Like.t => Like.tweet l.2 = Some d.1)).
  - rewrite bool_decide_eq_true, <- list_fmap_compose. split.
    + intros Hin. apply list_elem_of_fmap in Hin as (l & Hby & Hl).
      apply list_elem_of_filter in Hl as [Htarget Hl].
      apply elem_of_documents in Hl. simpl in Hby. by exists l.1, l.2.
    + intros (k & l & Hk & Htarget & Hby).
      apply list_elem_of_fmap. exists (k, l). simpl. split; [done|].
      apply list_elem_of_filter. split; [done|].
      by apply (proj2 (elem_of_documents (likes st) (k, l))).
Qed.

(** The rows of the channel profile are the rows of the stored users
    with the lower-cased username. *)
Lemma elem_of_channelProfilePipeline viewer username st row :
  row ∈ channelProfilePipeline viewer username st
  <-> exists d, users st !! d.1 = Some d.2
                /\ User.username d.2 = toLowerCase username
                /\ row = channelProfileRow viewer st d.
Proof.
  unfold channelProfilePipeline. rewrite list_elem_of_fmap. split.
  - intros (d & -> & Hd). apply (proj1 (elem_of_find _ _ d)) in Hd as [Hd Hu].
    by exists d.
  - intros (d & Hd & Hu & ->). exists d. split; [done|].
    by apply (proj2 (elem_of_find _ _ d)).
Qed.

(** What [$size] and [$in] derive for one user. *)
Lemma channelProfileRow_subscribers viewer st d :
  ChannelProfile.subscribersCount (channelProfileRow viewer st d)
  = size (filter (fun e : N * Subscription.t => Subscription.channel e.2 = d.1)
            (subscriptions st))
  /\ (ChannelProfile.isSubscribed (channelProfileRow viewer st d) = true <->
      exists k e, subscriptions st !! k = Some e /\ Subscription.channel e = d.1
                  /\ Subscription.subscriber e = viewer).
Proof.
  unfold channelProfileRow, lookupFrom. simpl. split.
  - rewrite length_fmap.
    apply (length_filter_documents
             (fun e : N * Subscription.t => Subscription.channel e.2 = d.1)).
  - rewrite bool_decide_eq_true, list_fmap_id. split.
    + intros Hin. apply list_elem_of_fmap in Hin as (e & Hby & He).
      apply list_elem_of_filter in He as [Htarget He].
      apply elem_of_documents in He. by exists e.1, e.2.
    + intros (k & e & Hk & Htarget & Hby).
      apply list_elem_of_fmap. exists (k, e). simpl. split; [done|].
      apply list_elem_of_filter. split; [done|].
      by apply (proj2 (elem_of_documents (subscriptions st) (k, e))).
Qed.

(** C5: the tweet feed has one row for each stored tweet of the viewer
    and no other; on each row [likeCount] is the number of stored likes
    whose target is the row's tweet and [isLiked] holds exactly when one
    of them is by the viewer. The channel profile has a row for each
    stored user with the lower-cased username and no other; on each row
    [subscribersCount] is the number of stored edges whose channel is
    that user and [isSubscribed] holds exactly when one of them is from
    the viewer; for a username that is not blank and that a stored user
    has, the handler answers with such a row. *)
Theorem derived_counts_and_flags viewer st :
  (length (userTweetsPipeline viewer st)
   = size (filter (fun d : N * Tweet.t => Tweet.tweetOwner d.2 = viewer) (tweets st))
   /\ (forall id t, tweets st !! id = Some t -> Tweet.tweetOwner t = viewer ->
         exists row, row ∈ userTweetsPipeline viewer st
                     /\ TweetRow._id row = id
                     /\ TweetRow.content row = Tweet.content t)
   /\ forall row, row ∈ userTweetsPipeline viewer st ->
        (exists t, tweets st !! TweetRow._id row = Some t
                   /\ Tweet.tweetOwner t = viewer)
        /\ TweetRow.likeCount row
           = size (filter (fun d : N * Like.t => Like.tweet d.2 = Some (TweetRow._id row))
                     (likes st))
        /\ (TweetRow.isLiked row = true <->
            exists k l, likes st !! k = Some l
                        /\ Like.tweet l = Some (TweetRow._id row)
                        /\ Like.likedBy l = viewer))
  /\ forall username,
       (forall id u, users st !! id = Some u ->
          User.username u = toLowerCase username ->
          exists row, row ∈ channelProfilePipeline viewer username st
                      /\ ChannelProfile._id row = id)
       /\ (forall row, row ∈ channelProfilePipeline viewer username st ->
             (exists u, users st !! ChannelProfile._id row = Some u
                        /\ User.username u = toLowerCase username)
             /\ ChannelProfile.subscribersCount row
                = size (filter (fun d : N * Subscription.t =>
                                  Subscription.channel d.2 = ChannelProfile._id row)
                          (subscriptions st))
             /\ (ChannelProfile.isSubscribed row = true <->
                 exists k e, subscriptions st !! k = Some e
                             /\ Subscription.channel e = ChannelProfile._id row
                             /\ Subscription.subscriber e = viewer))
       /\ (trim username <> EmptyString ->
           (exists id u, users st !! id = Some u
                         /\ User.username u = toLowerCase username) ->
           exists resp,
             getUserChannelProfile viewer (Some username) st = Sent resp
             /\ data (json resp) ∈ channelProfilePipeline viewer username st).
Proof.
  split; [split; [|split]|].
  - unfold userTweetsPipeline, matchTweetOwner, find. rewrite length_fmap.
    apply (length_filter_documents
             (fun d : N * Tweet.t => Tweet.tweetOwner d.2 = viewer)).
  - intros id t Hid Ho. exists (tweetRow viewer st (id, t)).
    split; [|done]. apply elem_of_userTweetsPipeline. by exists (id, t).
  - intros row Hrow.
    apply elem_of_userTweetsPipeline in Hrow as (d & Hd & Ho & ->).
    split; [by exists d.2|]. apply tweetRow_likes.
  - intros username. split; [|split].
    + intros id u Hid Hu. exists (channelProfileRow viewer st (id, u)).
      split; [|done]. apply elem_of_channelProfilePipeline. by exists (id, u).
    + intros row Hrow.
      apply elem_of_channelProfilePipeline in Hrow as (d & Hd & Hu & ->).
      split; [by exists d.2|]. apply channelProfileRow_subscribers.
    + intros Hname (id & u & Hid & Hu).
      assert (Hin : channelProfileRow viewer st (id, u)
                    ∈ channelProfilePipeline viewer username st)
        by (apply elem_of_channelProfilePipeline; by exists (id, u)).
      unfold getUserChannelProfile. simpl.
      rewrite (bool_decide_eq_false_2 (trim username = EmptyString)) by done.
      simpl.
      destruct (channelProfilePipeline viewer username st) as [|row0 rows];
        [inversion Hin|].
      eexists. split; [reflexivity|]. left.
Qed.

(** The owner join finds the record stored under the owner's identity
    and keeps its full name, username and avatar. *)
Lemma owner_lookup (m : gmap N User.t) k :
  head (lookupFrom m (fun u => u.1 = k) Profile.project)
  = (fun u => Profile.mk k (User.fullName u) (User.username u) (User.avatar u))
      <$> m !! k.
Proof. rewrite lookupFrom_by_key. by destruct (m !! k). Qed.

(** So it reads the public part of the user records only. *)
Lemma owner_lookup_agree (m1 m2 : gmap N User.t) k :
  publicPart <$> m1 = publicPart <$> m2 ->
  lookupFrom m1 (fun u => u.1 = k) Profile.project
  = lookupFrom m2 (fun u => u.1 = k) Profile.project.
Proof.
  intros Hpub. rewrite !lookupFrom_by_key.
  assert (Hk : publicPart <$> m1 !! k = publicPart <$> m2 !! k).
  { pose proof (f_equal (fun m : gmap N User.t => m !! k) Hpub) as Hk.
    simpl in Hk. by rewrite !lookup_fmap in Hk. }
  destruct (m1 !! k) as [u1|], (m2 !! k) as [u2|]; simplify_eq/=; [|done].
  unfold Profile.project. simpl. congruence.
Qed.

(** C7: owner enrichment puts on every row of the tweet feed the full
    name, username and avatar of the stored owner, and on every video of
    the watch history the owner's identity, full name, username and
    avatar; the feed that is composed and the watch history that is
    answered are the same in two stores that differ only in the
    password, refresh token or email of user records. *)
Theorem owner_enrichment_hides_credentials viewer st1 st2 :
  sameUpToCredentials st1 st2 ->
  userTweetsPipeline viewer st1 = userTweetsPipeline viewer st2
  /\ getWatchHistory viewer st1 = getWatchHistory viewer st2
  /\ (forall row, row ∈ userTweetsPipeline viewer st1 ->
        TweetRow.fullName row = User.fullName <$> users st1 !! viewer
        /\ TweetRow.username row = User.username <$> users st1 !! viewer
        /\ TweetRow.avatar row = User.avatar <$> users st1 !! viewer)
  /\ (forall resp row,
        getWatchHistory viewer st1 = Sent resp -> row ∈ data (json resp) ->
        exists video,
          videos st1 !! VideoRow._id row = Some video
          /\ VideoRow.owner row
             = (fun u => Profile.mk (Video.owner video) (User.fullName u)
                           (User.username u) (User.avatar u))
                 <$> users st1 !! Video.owner video).
Proof.
  intros (Husers & Htweets & Hlikes & _ & Hvideos).
  split; [|split; [|split]].
  - unfold userTweetsPipeline, matchTweetOwner. rewrite Htweets.
    apply list_fmap_ext. intros _ d _.
    unfold tweetRow, lookupTweetOwner, lookupLikeDetails.
    by rewrite (owner_lookup_agree _ _ _ Husers), Hlikes.
  - unfold getWatchHistory, watchHistoryPipeline.
    rewrite !filter_key_documents, Hvideos.
    assert (Hk : publicPart <$> users st1 !! viewer
                 = publicPart <$> users st2 !! viewer).
    { pose proof (f_equal (fun m : gmap N User.t => m !! viewer) Husers) as Hk.
      simpl in Hk. by rewrite !lookup_fmap in Hk. }
    destruct (users st1 !! viewer) as [u1|], (users st2 !! viewer) as [u2|];
      simplify_eq/=; [|done].
    assert (Hwatch : User.watchHistory u1 = User.watchHistory u2) by congruence.
    assert (Hrows :
      lookupFrom (videos st2) (fun v => v.1 ∈ User.watchHistory u2) (videoRow st1)
      = lookupFrom (videos st2) (fun v => v.1 ∈ User.watchHistory u2) (videoRow st2)).
    { unfold lookupFrom. apply list_fmap_ext. intros _ v _. unfold videoRow.
      by rewrite (owner_lookup_agree _ _ _ Husers). }
    rewrite Hwatch. simpl. by rewrite Hrows.
  - intros row Hrow.
    apply elem_of_userTweetsPipeline in Hrow as (d & Hd & Ho & ->).
    unfold tweetRow, lookupTweetOwner. simpl. rewrite owner_lookup, Ho.
    by destruct (users st1 !! viewer).
  - intros resp row. unfold getWatchHistory, watchHistoryPipeline.
    rewrite filter_key_documents.
    destruct (users st1 !! viewer) as [u|]; [|discriminate].
    simpl. intros [= <-]. simpl. unfold lookupFrom. intros Hrow.
    apply list_elem_of_fmap in Hrow as (v & -> & Hv).
    apply list_elem_of_filter in Hv as [_ Hv]. apply elem_of_documents in Hv.
    exists v.2. split; [done|]. unfold videoRow. simpl. apply owner_lookup.
Qed.

End ViewComposer.

(** * Registration *)

Section Registration.
Context {E : Env}.

(** A registration that fails has created no user record. *)
Lemma registerUser_failure_creates_nothing body files st e :
  (registerUser body files st).1 = Thrown e ->
  (registerUser body files st).2 = st.
Proof.
  unfold registerUser.
  destruct (existsb _ _); [done|].
  destruct (JS.truthy (JS.of_doc _)); [done|].
  destruct (avatarLocalPath files) as [e'|path]; [done|].
  destruct (negb (JS.truthy (JS.of_field path))); [done|].
  destruct (uploadOnCloudinary path) as [avatarUrl|]; [|done].
  destruct (body_username body) as [username|]; [|done].
  destruct (newUser _ _) as [e'|doc]; [done|].
  unfold create, findById. simpl. rewrite lookup_insert_eq. simpl. discriminate.
Qed.

(** With no file under [avatar] (the upload produced no [req.files], or
    an empty list), or with a failed upload, a registration that passes
    the earlier checks fails with BadRequest. *)
Lemma registerUser_avatar_not_uploaded body files path st :
  avatarLocalPath files = inr path ->
  path = None \/ uploadOnCloudinary path = None ->
  (failsWith BadRequest (registerUser body files st).1
   \/ failsWith Conflict (registerUser body files st).1)
  /\ (registerUser body files st).2 = st.
Proof.
  intros Hpath Hnone. unfold registerUser.
  destruct (existsb _ _); [split; [left; eexists|]; reflexivity|].
  destruct (JS.truthy (JS.of_doc _)); [split; [right; eexists|]; reflexivity|].
  rewrite Hpath.
  destruct (negb (JS.truthy (JS.of_field path))) eqn:Hfalsy;
    [split; [left; eexists|]; reflexivity|].
  destruct Hnone as [-> | ->]; [discriminate|].
  split; [left; eexists|]; reflexivity.
Qed.

(** With a [req.files] that has no [avatar] property, a registration
    that passes the earlier checks throws a TypeError. *)
Lemma registerUser_avatar_property_absent body (files : gmap string (list string)) st :
  files !! "avatar" = None ->
  failsWith BadRequest (registerUser body (Some files) st).1
  \/ failsWith Conflict (registerUser body (Some files) st).1
  \/ (registerUser body (Some files) st).1
     = Thrown (RuntimeError "TypeError"
                 "Cannot read properties of undefined (reading '0')").
Proof.
  intros Hfiles. unfold registerUser.
  destruct (existsb _ _); [left; eexists; reflexivity|].
  destruct (JS.truthy (JS.of_doc _)); [right; left; eexists; reflexivity|].
  unfold avatarLocalPath. rewrite Hfiles. by right; right.
Qed.

End Registration.

(** * The handlers on concrete requests *)

(** C2: a successful refresh stores the new refresh token on the user
    record, but the response does not carry it: the cookie and the
    payload field named [refreshToken] hold [undefined], because the
    token helper's result has no property [newRefreshToken]. *)
Theorem refresh_success_omits_refresh_token :
  let r := refreshAccessToken (E := Demo.env) 1 (Some "refresh-1-t0") None Demo.store in
  exists resp,
    r.1 = Sent resp
    /\ cookies resp = [("accessToken", Some "access-ada-t1"); ("refreshToken", None)]
    /\ data (json resp) = TokenPair.mk (Some "access-ada-t1") None
    /\ User.refreshToken <$> users r.2 !! 1%N = Some (Some "refresh-1-t1").
Proof.
  eexists. split; [vm_compute; reflexivity|]. simpl.
  split; [reflexivity|]. split; [reflexivity|]. vm_compute. reflexivity.
Qed.

(** C3: Bob's tweet updated by Ada: the request is refused and the store
    is what it was, but the status of the error is 404, not 403. *)
Theorem updateTweet_non_owner_status :
  updateTweet (E := Demo.env) 1 Demo.tweetId10 (Some "edited") Demo.store
  = (Thrown (ApiError NotFound "You are not authorized to update this tweet.."),
     Demo.store)
  /\ ~ failsWith Forbidden
         (updateTweet (E := Demo.env) 1 Demo.tweetId10 (Some "edited") Demo.store).1.
Proof.
  assert (Hrun : updateTweet (E := Demo.env) 1 Demo.tweetId10 (Some "edited") Demo.store
                 = (Thrown (ApiError NotFound
                              "You are not authorized to update this tweet.."),
                    Demo.store)).
  { apply (updateTweet_non_owner (E := Demo.env) 1 Demo.tweetId10 (Some "edited")
             10%N (Tweet.mk "hello" 2%N 100%Z) Demo.store);
      [reflexivity | reflexivity | reflexivity | discriminate]. }
  split; [exact Hrun|]. rewrite Hrun. simpl. intros [msg [=]].
Qed.

(** C8: a registration with every field filled in, a free username and
    email, a cover image and no file uploaded under [avatar]: the
    handler throws a TypeError, not a BadRequest; no user record is
    created. *)
Theorem registerUser_avatar_field_absent :
  registerUser (E := Demo.env) Demo.registration (Some Demo.coverOnly) Demo.store
  = (Thrown (RuntimeError "TypeError"
               "Cannot read properties of undefined (reading '0')"),
     Demo.store)
  /\ ~ failsWith BadRequest
         (registerUser (E := Demo.env) Demo.registration (Some Demo.coverOnly) Demo.store).1.
Proof.
  assert (Hrun : registerUser (E := Demo.env) Demo.registration (Some Demo.coverOnly) Demo.store
                 = (Thrown (RuntimeError "TypeError"
                              "Cannot read properties of undefined (reading '0')"),
                    Demo.store))
    by (vm_compute; reflexivity).
  split; [exact Hrun|]. rewrite Hrun. simpl. intros [msg [=]].
Qed.

(** C9: Ada, subscribed to Bob, lists her subscribed channels: the one
    row names Bob as the channel, and the profile joined to it is Ada's
    own, not Bob's. *)
Theorem subscribedChannels_joins_subscriber :
  exists resp row,
    getSubscribedChannels 1 Demo.store = Sent resp
    /\ data (json resp) = [row]
    /\ SubscriptionRow.subscriber row = 1%N
    /\ SubscriptionRow.channel row = 2%N
    /\ SubscriptionRow.subscriberInfo row = Some (Profile.project (1%N, Demo.ada))
    /\ SubscriptionRow.subscriberInfo row <> Some (Profile.project (2%N, Demo.bob)).
Proof.
  eexists _, _. split; [vm_compute; reflexivity|]. simpl.
  split; [reflexivity|]. repeat split. discriminate.
Qed.

(** C4 as stated fails on a store that holds the edge twice: each of two
    toggles deletes one copy, so the edge that existed is gone. *)
Lemma toggle_twice_loses_duplicated_edge :
  let first := toggleSubscription (E := Demo.env) 1 Demo.id2 Demo.duplicated in
  let second := toggleSubscription (E := Demo.env) 1 Demo.id2 first.2 in
  edgeExists 1 2 Demo.duplicated /\ ~ edgeExists 1 2 second.2.
Proof.
  intros first second. split.
  - exists 40%N, (Subscription.mk 1 2). split; [reflexivity|]. by split.
  - intros (k & e & Hk & _).
    assert (Hempty : subscriptions second.2 = ∅) by (vm_compute; reflexivity).
    rewrite Hempty, lookup_empty in Hk. discriminate.
Qed.

(** C6 as stated fails for the empty content, whose trimmed form is
    empty: the owner's update is refused, not reported as a success. *)
Lemma updateTweet_empty_content_rejected :
  trim (Env := Demo.env) EmptyString = EmptyString
  /\ Tweet.tweetOwner <$> tweets Demo.store !! 10%N = Some 2%N
  /\ (updateTweet (E := Demo.env) 2 Demo.tweetId10 (Some EmptyString) Demo.store).1
     = Thrown (ApiError 404 "Tweet content required..")
  /\ ~ succeeds
         (updateTweet (E := Demo.env) 2 Demo.tweetId10 (Some EmptyString) Demo.store).1.
Proof.
  assert (Hrun : (updateTweet (E := Demo.env) 2 Demo.tweetId10 (Some EmptyString)
                    Demo.store).1
                 = Thrown (ApiError 404 "Tweet content required.."))
    by (vm_compute; reflexivity).
  split; [reflexivity|]. split; [reflexivity|]. split; [exact Hrun|].
  rewrite Hrun. intros (r & [=] & _).
Qed.

(** ** The theorems at concrete inputs *)

(** A replay: Ada's token is rotated at time 1, then presented again. *)
Lemma refresh_mismatch_unauthorized_witness :
  let rotated :=
    (refreshAccessToken (E := Demo.env) 1 (Some "refresh-1-t0") None Demo.store).2 in
  failsWith Unauthorized
    (refreshAccessToken (E := Demo.env) 2 (Some "refresh-1-t0") None rotated).1
  /\ (refreshAccessToken (E := Demo.env) 2 (Some "refresh-1-t0") None rotated).2
     = rotated.
Proof.
  intros rotated.
  apply (refresh_mismatch_unauthorized (E := Demo.env) 2 (Some "refresh-1-t0") None
           "refresh-1-t0" Demo.id1 1%N
           (User.setRefreshToken (Some "refresh-1-t1") Demo.ada) rotated).
  - reflexivity.
  - reflexivity.
  - reflexivity.
  - vm_compute. reflexivity.
  - simpl. discriminate.
Defined.

Lemma updateTweet_blank_content_witness :
  succeeds (updateTweet (E := Demo.env) 2 Demo.tweetId10 (Some "   ") Demo.store).1
  /\ forall k,
       Tweet.content
         <$> tweets (updateTweet (E := Demo.env) 2 Demo.tweetId10 (Some "   ")
                       Demo.store).2 !! k
       = Tweet.content <$> tweets Demo.store !! k.
Proof.
  apply (updateTweet_blank_content (E := Demo.env) 2 Demo.tweetId10 "   " 10%N
           (Tweet.mk "hello" 2%N 100%Z) Demo.store).
  - reflexivity.
  - reflexivity.
  - reflexivity.
  - reflexivity.
  - discriminate.
  - reflexivity.
Defined.

Lemma demo_store_atMostOneEdge : atMostOneEdge 1 2 Demo.store.
Proof.
  intros k1 k2 e1 e2 Hk1 Hk2 _ _. simpl in Hk1, Hk2.
  apply lookup_insert_Some in Hk1 as [[<- _] | [_ Hk1]];
    [|by rewrite lookup_empty in Hk1].
  apply lookup_insert_Some in Hk2 as [[<- _] | [_ Hk2]];
    [done | by rewrite lookup_empty in Hk2].
Qed.

Lemma toggle_twice_restores_witness :
  let first := toggleSubscription (E := Demo.env) 1 Demo.id2 Demo.store in
  let second := toggleSubscription (E := Demo.env) 1 Demo.id2 first.2 in
  (edgeExists 1 2 second.2 <-> edgeExists 1 2 Demo.store)
  /\ (~ edgeExists 1 2 Demo.store ->
      createdEdge first.1 /\ edgeExists 1 2 first.2 /\ deletedEdge second.1)
  /\ (edgeExists 1 2 Demo.store ->
      deletedEdge first.1 /\ ~ edgeExists 1 2 first.2 /\ createdEdge second.1).
Proof.
  apply (toggle_twice_restores (E := Demo.env) 1 Demo.id2 2%N Demo.store).
  - reflexivity.
  - exact demo_store_atMostOneEdge.
Defined.

(** Bob owns the tweet of his feed and the video of Ada's watch history;
    the two stores hold other credentials for both of them. *)
Lemma owner_enrichment_hides_credentials_witness :
  users Demo.store !! 2%N <> users Demo.store' !! 2%N
  /\ userTweetsPipeline 2 Demo.store = userTweetsPipeline 2 Demo.store'
  /\ getWatchHistory 1 Demo.store = getWatchHistory 1 Demo.store'
  /\ (forall row, row ∈ userTweetsPipeline 2 Demo.store ->
        TweetRow.fullName row = Some "Bob"
        /\ TweetRow.username row = Some "bob"
        /\ TweetRow.avatar row = Some "bob.png").
Proof.
  assert (Hsame : sameUpToCredentials Demo.store Demo.store')
    by (repeat split; vm_compute; reflexivity).
  destruct (owner_enrichment_hides_credentials 2 _ _ Hsame)
    as (Hfeed & _ & Hprojected & _).
  destruct (owner_enrichment_hides_credentials 1 _ _ Hsame)
    as (_ & Hhistory & _).
  split; [vm_compute; discriminate|]. split; [exact Hfeed|].
  split; [exact Hhistory|]. exact Hprojected.
Defined.


(** ** Sanity checks of the model *)

Example trim_examples :
  JS.trim "  a b  " = "a b" /\ JS.trim "   " = EmptyString
  /\ JS.truthy (JS.Str "   ") = true /\ JS.truthy JS.Function = true.
Proof. repeat split. Qed.

(** White space outside ASCII (here U+00A0, U+FEFF and U+3000) is
    trimmed; U+200B and a letter whose last byte is A0 are not. *)
Example trim_unicode_examples :
  JS.trim " " = EmptyString
  /\ JS.trim " ﻿ a b 　 " = "a b"
  /\ JS.trim "a​" = "a​"
  /\ JS.trim "xà" = "xà".
Proof. vm_compute. repeat split. Qed.

(** An update whose content is U+00A0 alone keeps the stored content. *)
Example update_with_no_break_space :
  tweets (updateTweet (E := Demo.env) 2 Demo.tweetId10 (Some " ") Demo.store).2
    !! 10%N
  = Some (Tweet.mk "hello" 2 100).
Proof. vm_compute. reflexivity. Qed.

Example watch_history_of_ada :
  exists resp,
    getWatchHistory 1 Demo.store = Sent resp
    /\ data (json resp)
       = [VideoRow.mk 20 (Some (Profile.mk 2 "Bob" "bob" "bob.png")) "clip"].
Proof. eexists. split; [vm_compute; reflexivity|]. reflexivity. Qed.

Example feed_of_bob :
  userTweetsPipeline 2 Demo.store
  = [TweetRow.mk 10 (Some "Bob") (Some "bob") (Some "bob.png") "hello" 1 false 100].
Proof. vm_compute. reflexivity. Qed.

Example profile_of_bob_seen_by_ada :
  exists resp,
    getUserChannelProfile (E := Demo.env) 1 (Some "BOB") Demo.store = Sent resp
    /\ ChannelProfile.subscribersCount (data (json resp)) = 1
    /\ ChannelProfile.isSubscribed (data (json resp)) = true.
Proof. eexists. split; [vm_compute; reflexivity|]. by split. Qed.

Example malformed_channel_id :
  toggleSubscription (E := Demo.env) 1 "not-an-id" Demo.store
  = (Thrown (RuntimeError "CastError" "Cast to ObjectId failed"), Demo.store).
Proof. reflexivity. Qed.

Example registration_with_avatar :
  exists resp,
    (registerUser (E := Demo.env) Demo.registration
       (Some (<["avatar" := ["/tmp/a.png"]]> ∅)) Demo.store).1 = Sent resp
    /\ status resp = 201%Z
    /\ SafeUser.username <$> data (json resp) = Some "carol".
Proof. eexists. split; [vm_compute; reflexivity|]. by split. Qed.

(** * More of the controllers *)

(** ** Updates that leave a view of the records alone *)

Section FieldUpdates.
Context {A B : Type}.
Implicit Types (m : gmap N A) (g : A -> B) (f : A -> A).

Lemma fmap_alter_invariant g f i m :
  (forall x, g (f x) = g x) -> g <$> alter f i m = g <$> m.
Proof.
  intros Hg. apply map_eq. intros k. rewrite !lookup_fmap, lookup_alter.
  case_decide as Hk; [|done]. subst k. destruct (m !! i); simpl; [|done].
  by rewrite Hg.
Qed.

Lemma fmap_insert_invariant g i x y m :
  m !! i = Some x -> g y = g x -> g <$> <[i := y]> m = g <$> m.
Proof.
  intros Hi Hg. apply map_eq. intros k. rewrite !lookup_fmap, lookup_insert.
  case_decide as Hk; [|done]. subst k. rewrite Hi. simpl. by rewrite Hg.
Qed.

End FieldUpdates.

(** ** The life of a tweet *)

Section TweetLifecycle.
Context {E : Env} {M : ModelHooks}.

(** X1: posting a non-empty content answers with success and adds one row
    to the poster's feed, for a tweet that was not stored before, with
    the content as given and the time of the request; the rows that the
    feed had are still there. *)
Theorem createTweet_adds_feed_row now viewer content st :
  content <> EmptyString ->
  let r := createTweet now viewer (Some content) st in
  succeeds r.1
  /\ (exists row, row ∈ userTweetsPipeline viewer r.2
                  /\ tweets st !! TweetRow._id row = None
                  /\ TweetRow.content row = content
                  /\ TweetRow.createdAt row = now)
  /\ (forall row, row ∈ userTweetsPipeline viewer st ->
                  row ∈ userTweetsPipeline viewer r.2)
  /\ length (userTweetsPipeline viewer r.2)
     = S (length (userTweetsPipeline viewer st)).
Proof.
  intros Hcontent r. subst r. unfold createTweet.
  rewrite bool_decide_eq_false_2 by congruence. simpl.
  set (n := newObjectId (tweets st)).
  set (t := Tweet.mk content viewer now).
  assert (Hfresh : tweets st !! n = None) by apply newObjectId_fresh.
  split; [eexists; split; reflexivity|].
  unfold userTweetsPipeline, matchTweetOwner. simpl.
  split; [|split].
  - exists (tweetRow viewer st (n, t)). split; [|done].
    apply (list_elem_of_fmap_2 (tweetRow viewer st)).
    apply (proj2 (elem_of_find _ _ (n, t))). simpl. by rewrite lookup_insert_eq.
  - intros row Hrow. apply list_elem_of_fmap in Hrow as (d & -> & Hd).
    apply (list_elem_of_fmap_2 (tweetRow viewer st)).
    apply (proj1 (elem_of_find _ _ d)) in Hd as [Hd Howner].
    apply (proj2 (elem_of_find _ _ d)). split; [|done].
    rewrite lookup_insert_ne; [done|]. intros ->. congruence.
  - rewrite !length_fmap. unfold find.
    rewrite !(length_filter_documents
                (fun d : N * Tweet.t => Tweet.tweetOwner d.2 = viewer)).
    rewrite map_filter_insert_True by done.
    apply map_size_insert_None. by apply map_lookup_filter_None_2; left.
Qed.

(** X2: when the owner updates a tweet with a content that is not empty
    and not blank, the content is stored as given (not trimmed), the owner and the
    creation time stay, no other tweet changes, and the payload of the
    success response is the handler function, not the updated tweet. *)
Theorem updateTweet_replaces_content viewer tweetId content id tweet st :
  isValidObjectId tweetId = true ->
  castObjectId tweetId = Some id ->
  tweets st !! id = Some tweet ->
  Tweet.tweetOwner tweet = viewer ->
  content <> EmptyString ->
  trim content <> EmptyString ->
  let r := updateTweet viewer tweetId (Some content) st in
  (exists resp, r.1 = Sent resp /\ status resp = 200%Z
                /\ data (json resp) = JS.Function)
  /\ tweets r.2 !! id
     = Some (Tweet.mk content (Tweet.tweetOwner tweet) (Tweet.createdAt tweet))
  /\ forall k, k <> id -> tweets r.2 !! k = tweets st !! k.
Proof.
  intros Hvalid Hcast Htweet Howner Hnonempty Htrim r. subst r.
  unfold updateTweet, findById, findByIdAndUpdate.
  rewrite Hvalid, Hcast, Htweet. simpl.
  rewrite bool_decide_eq_true_2 by done. simpl.
  rewrite (bool_decide_eq_false_2 (content = EmptyString)) by done. simpl.
  rewrite (bool_decide_eq_false_2 (trim content = EmptyString)) by done. simpl.
  split; [eexists; repeat split|]. split.
  - by rewrite lookup_alter_eq, Htweet.
  - intros k Hk. by rewrite lookup_alter_ne.
Qed.

(** X3: no update changes the set of stored tweets, the owner or the
    creation time of any of them, whoever asks and whatever the content;
    a delete only takes tweets away. *)
Theorem tweet_owner_immutable viewer tweetId content st :
  (fun t => (Tweet.tweetOwner t, Tweet.createdAt t))
    <$> tweets (updateTweet viewer tweetId content st).2
  = (fun t => (Tweet.tweetOwner t, Tweet.createdAt t)) <$> tweets st
  /\ tweets (deleteTweet viewer tweetId st).2 ⊆ tweets st.
Proof.
  split.
  - unfold updateTweet.
    destruct (negb (isValidObjectId tweetId)); [done|].
    destruct (castObjectId tweetId) as [id|]; [|done].
    destruct (findById (tweets st) id) as [tweet|]; [|done].
    destruct (negb (bool_decide _)); [done|].
    destruct content as [content|]; [|done].
    destruct (negb (JS.truthy (JS.Str content))); [done|].
    unfold findByIdAndUpdate.
    destruct (negb (JS.truthy (JS.of_doc _))); simpl;
      by apply fmap_alter_invariant.
  - unfold deleteTweet.
    destruct (negb (isValidObjectId tweetId)); [done|].
    destruct (castObjectId tweetId) as [id|]; [|done].
    destruct (findById (tweets st) id) as [tweet|]; [|done].
    destruct (negb (bool_decide _)); [done|].
    unfold findByIdAndDelete.
    destruct (negb (JS.truthy (JS.of_doc _))); simpl; apply delete_subseteq.
Qed.

(** X4: an update or a delete that does not answer with a response has
    written nothing: tweet mutations are all or nothing. *)
Theorem tweet_mutation_all_or_nothing viewer tweetId content st :
  ((exists resp, (updateTweet viewer tweetId content st).1 = Sent resp)
   \/ (updateTweet viewer tweetId content st).2 = st)
  /\ ((exists resp, (deleteTweet viewer tweetId st).1 = Sent resp)
      \/ (deleteTweet viewer tweetId st).2 = st).
Proof.
  split.
  - unfold updateTweet.
    destruct (negb (isValidObjectId tweetId)); [by right|].
    destruct (castObjectId tweetId) as [id|]; [|by right].
    destruct (findById (tweets st) id) as [tweet|] eqn:Htweet; [|by right].
    destruct (negb (bool_decide _)); [by right|].
    destruct content as [content|]; [|by right].
    destruct (negb (JS.truthy (JS.Str content))); [by right|].
    unfold findByIdAndUpdate, findById in *. rewrite Htweet. simpl. left. eauto.
  - unfold deleteTweet.
    destruct (negb (isValidObjectId tweetId)); [by right|].
    destruct (castObjectId tweetId) as [id|]; [|by right].
    destruct (findById (tweets st) id) as [tweet|] eqn:Htweet; [|by right].
    destruct (negb (bool_decide _)); [by right|].
    unfold findByIdAndDelete, findById in *. rewrite Htweet. simpl. left. eauto.
Qed.

(** X5: the owner's delete answers with the deleted tweet and removes it
    and nothing else; the same delete asked again, and an update of the
    deleted tweet, fail with NotFound. *)
Theorem deleteTweet_then_gone viewer tweetId content id tweet st :
  isValidObjectId tweetId = true ->
  castObjectId tweetId = Some id ->
  tweets st !! id = Some tweet ->
  Tweet.tweetOwner tweet = viewer ->
  let r := deleteTweet viewer tweetId st in
  (exists resp, r.1 = Sent resp /\ data (json resp) = Some tweet)
  /\ tweets r.2 = delete id (tweets st)
  /\ failsWith NotFound (deleteTweet viewer tweetId r.2).1
  /\ failsWith NotFound (updateTweet viewer tweetId content r.2).1.
Proof.
  intros Hvalid Hcast Htweet Howner r.
  assert (Hr : r = (respond 200 (newApiResponse 200 (Some tweet)
                                   "Tweet deleted successfully.."),
                    withTweets (delete id (tweets st)) st)).
  { subst r. unfold deleteTweet, findById, findByIdAndDelete.
    rewrite Hvalid, Hcast, Htweet. simpl.
    by rewrite bool_decide_eq_true_2 by done. }
  rewrite Hr. simpl. split; [eexists; split; reflexivity|]. split; [done|].
  unfold deleteTweet, updateTweet, findById. rewrite Hvalid, Hcast. simpl.
  rewrite lookup_delete_eq. split; eexists; reflexivity.
Qed.

End TweetLifecycle.

(** ** More on subscriptions *)

Section SubscriptionFrame.
Context {E : Env}.

(** X6: a toggle leaves every other pair alone: an edge from another
    subscriber, or to another channel, exists after the call exactly when
    it did before, and no other collection is written. *)
Theorem toggle_touches_one_pair viewer channelId st subscriber channel :
  subscriber <> viewer \/ castObjectId channelId <> Some channel ->
  let r := toggleSubscription viewer channelId st in
  (edgeExists subscriber channel r.2 <-> edgeExists subscriber channel st)
  /\ users r.2 = users st /\ tweets r.2 = tweets st
  /\ likes r.2 = likes st /\ videos r.2 = videos st.
Proof.
  intros Hother r. subst r. unfold toggleSubscription, toggleEdge. simpl.
  destruct (castObjectId channelId) as [ch|] eqn:Hcast; [|done].
  assert (Hne : forall e, isEdge subscriber channel e -> ~ isEdge viewer ch e).
  { intros e [Hs Hc] [Hs' Hc']. destruct Hother as [Hother | Hother].
    - apply Hother. congruence.
    - apply Hother. congruence. }
  destruct (findOne (isEdge viewer ch) (subscriptions st)) as [d|] eqn:Hone; simpl.
  - apply findOne_Some in Hone as [Hd Hedge].
    split; [|done]. unfold edgeExists. simpl. split.
    + intros (k & e & Hk & He). apply lookup_delete_Some in Hk as [_ Hk]. eauto.
    + intros (k & e & Hk & He). exists k, e. split; [|done].
      apply lookup_delete_Some. split; [|done].
      intros <-. apply (Hne e He). congruence.
  - split; [|done]. unfold edgeExists. simpl. split.
    + intros (k & e & Hk & He).
      apply lookup_insert_Some in Hk as [[_ <-] | [_ Hk]]; [|eauto].
      exfalso. apply (Hne _ He). by split.
    + intros (k & e & Hk & He). exists k, e. split; [|done].
      rewrite lookup_insert_ne; [done|]. intros <-.
      by rewrite newObjectId_fresh in Hk.
Qed.

(** X7: for every channel id that casts, the toggle answers with success
    and changes the number of stored edges by exactly one; the users
    collection is not consulted, so this holds for a channel that is no
    stored user and for the viewer's own identity. *)
Theorem toggle_succeeds_without_checks viewer channelId channel st :
  castObjectId channelId = Some channel ->
  let r := toggleSubscription viewer channelId st in
  succeeds r.1
  /\ (size (subscriptions r.2) = S (size (subscriptions st))
      \/ S (size (subscriptions r.2)) = size (subscriptions st)).
Proof.
  intros Hcast r. subst r. unfold toggleSubscription, toggleEdge. simpl.
  rewrite Hcast.
  destruct (findOne (isEdge viewer channel) (subscriptions st)) as [d|] eqn:Hone; simpl.
  - apply findOne_Some in Hone as [Hd _].
    split; [eexists; split; reflexivity|]. right.
    rewrite map_size_delete, Hd.
    assert (Hsize : size (subscriptions st) <> 0)
      by (eapply map_size_ne_0_lookup_2; eauto).
    simpl. lia.
  - split; [eexists; split; reflexivity|]. left.
    apply map_size_insert_None, newObjectId_fresh.
Qed.


End SubscriptionFrame.

(** ** The token lifecycle *)

Section TokenLifecycle.
Context {E : Env}.

Lemma sameUsersUpTo_refl erase st : sameUsersUpTo erase st st.
Proof. by repeat split. Qed.

Lemma sameUsersUpTo_withUsers erase c st :
  erase <$> c = erase <$> users st -> sameUsersUpTo erase (withUsers c st) st.
Proof. intros Hc. by repeat split. Qed.

(** The [try] block either sends a response or throws without a write. *)
Lemma rotate_sent_or_unchanged now token st :
  (exists resp, (rotate now token st).1 = Sent resp)
  \/ (exists e, rotate now token st = (Thrown e, st)).
Proof.
  unfold rotate.
  destruct (jwtVerify token) as [msg|[sub|]]; [right; eauto| |right; eauto].
  destruct (castObjectId sub) as [id|]; [|right; eauto].
  unfold findById. destruct (users st !! id) as [user|] eqn:Hu; [|right; eauto].
  simpl. destruct (negb _); [right; eauto|].
  rewrite (generateAccessAndRefereshTokens_found now id user st Hu). left. eauto.
Qed.

(** X9: a refresh request that is not answered with a response fails with
    Unauthorized, whatever went wrong (no token, a token that does not
    verify, an unknown subject, a stale token), and writes nothing. *)
Theorem refresh_unauthorized_or_sent now cookieToken bodyToken st :
  (exists resp, (refreshAccessToken now cookieToken bodyToken st).1 = Sent resp)
  \/ (failsWith Unauthorized (refreshAccessToken now cookieToken bodyToken st).1
      /\ (refreshAccessToken now cookieToken bodyToken st).2 = st).
Proof.
  unfold refreshAccessToken.
  destruct (orElse cookieToken bodyToken) as [token|];
    [|right; split; [eexists|]; reflexivity].
  destruct (negb _); [right; split; [eexists|]; reflexivity|].
  destruct (rotate_sent_or_unchanged now token st) as [[resp Hsent] | [e Hthrown]].
  - left. exists resp. unfold rethrowUnauthorized. by rewrite Hsent.
  - right. rewrite Hthrown. apply rethrowUnauthorized_thrown.
Qed.

(** X10: refresh, login and logout write nothing but stored refresh
    tokens: every other field of every user record, and every other
    collection, is the same after the call, on every path. *)
Theorem token_handlers_write_only_refresh_tokens
  now cookieToken bodyToken email username password viewer st :
  sameUsersUpTo (User.setRefreshToken None)
    (refreshAccessToken now cookieToken bodyToken st).2 st
  /\ sameUsersUpTo (User.setRefreshToken None)
       (loginUser now email username password st).2 st
  /\ sameUsersUpTo (User.setRefreshToken None) (logoutUser viewer st).2 st.
Proof.
  split; [|split].
  - destruct (refresh_unauthorized_or_sent now cookieToken bodyToken st)
      as [[resp Hsent] | [_ ->]]; [|apply sameUsersUpTo_refl].
    revert Hsent. unfold refreshAccessToken.
    destruct (orElse cookieToken bodyToken) as [token|]; [|discriminate].
    destruct (negb _); [discriminate|].
    unfold rotate.
    destruct (jwtVerify token) as [msg|[sub|]]; [discriminate| |discriminate].
    destruct (castObjectId sub) as [id|]; [|discriminate].
    unfold findById. destruct (users st !! id) as [user|] eqn:Hu; [|discriminate].
    simpl. destruct (negb _); [discriminate|].
    rewrite (generateAccessAndRefereshTokens_found now id user st Hu). simpl.
    intros _. apply sameUsersUpTo_withUsers.
    by apply (fmap_insert_invariant _ _ user).
  - unfold loginUser.
    destruct (negb _ && negb _); [apply sameUsersUpTo_refl|].
    destruct (findOne _ (users st)) as [[id user]|] eqn:Hone;
      [|apply sameUsersUpTo_refl].
    apply findOne_Some in Hone as [Hu _]. simpl in Hu |- *.
    destruct (negb (isPasswordCorrect user password)); [apply sameUsersUpTo_refl|].
    rewrite (generateAccessAndRefereshTokens_found now id user st Hu). simpl.
    apply sameUsersUpTo_withUsers.
    by apply (fmap_insert_invariant _ _ user).
  - unfold logoutUser, findByIdAndUpdate. simpl.
    apply sameUsersUpTo_withUsers. by apply fmap_alter_invariant.
Qed.

(** X11: logout answers with success, clears the viewer's stored refresh
    token, and asked again changes nothing more. *)
Theorem logout_clears_token viewer st :
  succeeds (logoutUser viewer st).1
  /\ User.refreshToken <$> users (logoutUser viewer st).2 !! viewer
     = (fun _ => None) <$> users st !! viewer
  /\ logoutUser viewer (logoutUser viewer st).2 = logoutUser viewer st.
Proof.
  unfold logoutUser, findByIdAndUpdate. simpl. split; [|split].
  - eexists. split; reflexivity.
  - rewrite lookup_alter_eq. by destruct (users st !! viewer).
  - f_equal. unfold withUsers. simpl. f_equal.
    apply map_eq. intros k. destruct (decide (viewer = k)) as [<-|Hne].
    + rewrite !lookup_alter_eq. by destruct (users st !! viewer).
    + by rewrite !lookup_alter_ne.
Qed.

(** X12: after a logout every refresh token whose subject is the viewer
    is refused with Unauthorized, and the refusal writes nothing. *)
Theorem logout_revokes now cookieToken bodyToken token sub viewer st :
  orElse cookieToken bodyToken = Some token ->
  jwtVerify token = inr (Some sub) ->
  castObjectId sub = Some viewer ->
  let revoked := (logoutUser viewer st).2 in
  failsWith Unauthorized (refreshAccessToken now cookieToken bodyToken revoked).1
  /\ (refreshAccessToken now cookieToken bodyToken revoked).2 = revoked.
Proof.
  intros Htoken Hverify Hcast revoked.
  unfold refreshAccessToken. rewrite Htoken.
  destruct (negb (JS.truthy (JS.Str token)));
    [split; [eexists|]; reflexivity|].
  unfold rotate, findById. rewrite Hverify, Hcast.
  subst revoked. unfold logoutUser, findByIdAndUpdate. simpl.
  rewrite lookup_alter_eq.
  destruct (users st !! viewer) as [user|]; simpl;
    split; first [eexists; reflexivity | reflexivity].
Qed.

End TokenLifecycle.

(** ** Login *)

Section Login.
Context {E : Env}.

(** X13: a login is answered with a response only when a stored user
    matches the given username or email and the password check passes
    for that user; every other login fails with BadRequest, NotFound or
    Unauthorized and writes nothing, so no token is issued. *)
Theorem login_requires_password now email username password st :
  (exists resp id user,
      (loginUser now email username password st).1 = Sent resp
      /\ users st !! id = Some user
      /\ (username = Some (User.username user) \/ email = Some (User.email user))
      /\ isPasswordCorrect user password = true)
  \/ ((loginUser now email username password st).2 = st
      /\ (failsWith BadRequest (loginUser now email username password st).1
          \/ failsWith NotFound (loginUser now email username password st).1
          \/ failsWith Unauthorized (loginUser now email username password st).1)).
Proof.
  unfold loginUser.
  destruct (negb _ && negb _); [right; split; [done|]; left; by eexists|].
  destruct (findOne _ (users st)) as [[id user]|] eqn:Hone;
    [|right; split; [done|]; right; left; by eexists].
  apply findOne_Some in Hone as [Hu Hmatch]. simpl in Hu, Hmatch |- *.
  destruct (isPasswordCorrect user password) eqn:Hpw; simpl;
    [|right; split; [done|]; right; right; by eexists].
  rewrite (generateAccessAndRefereshTokens_found now id user st Hu).
  left. eexists _, id, user. repeat split; done.
Qed.

(** X14: when the refresh tokens issued for the stored users verify to
    their subject, the refresh token that a login answers with is
    accepted by the next refresh request. *)
Theorem login_then_refresh now now' email username password st resp :
  (forall id user, users st !! id = Some user ->
     generateRefreshToken now id user <> EmptyString
     /\ exists sub, jwtVerify (generateRefreshToken now id user) = inr (Some sub)
                    /\ castObjectId sub = Some id) ->
  (loginUser now email username password st).1 = Sent resp ->
  exists token resp',
    TokenPair.refreshToken (data (json resp)).2 = Some token
    /\ (refreshAccessToken now' (Some token) None
          (loginUser now email username password st).2).1 = Sent resp'.
Proof.
  intros Hround Hsent.
  destruct (loginUser_sent now email username password st resp Hsent)
    as (id & user & Hu & Hpayload & _ & Hstored).
  destruct (Hround id user Hu) as (Hnonempty & sub & Hverify & Hcast).
  set (token := generateRefreshToken now id user) in *.
  set (st1 := (loginUser now email username password st).2) in *.
  destruct (users st1 !! id) as [user1|] eqn:Hu1; [|discriminate].
  simpl in Hstored. injection Hstored as Htoken.
  assert (Hrun : exists resp',
             (refreshAccessToken now' (Some token) None st1).1 = Sent resp').
  { unfold refreshAccessToken, orElse. simpl.
    rewrite (bool_decide_eq_false_2 (token = EmptyString)) by done. simpl.
    rewrite (bool_decide_eq_false_2 (token = EmptyString)) by done. simpl.
    unfold rotate, findById. rewrite Hverify, Hcast, Hu1. simpl.
    rewrite Htoken, bool_decide_eq_true_2 by done. simpl.
    rewrite (generateAccessAndRefereshTokens_found now' id user1 st1 Hu1).
    simpl. eauto. }
  destruct Hrun as [resp' Hrun]. by exists token, resp'.
Qed.

End Login.

(** ** More on registration *)

Section RegistrationChecks.
Context {E : Env}.

(** X15: a registration never changes or removes a stored user record and
    adds at most one; it writes to no other collection. *)
Theorem registerUser_keeps_existing_users body files st :
  users st ⊆ users (registerUser body files st).2
  /\ size (users (registerUser body files st).2) <= S (size (users st))
  /\ tweets (registerUser body files st).2 = tweets st
  /\ likes (registerUser body files st).2 = likes st
  /\ subscriptions (registerUser body files st).2 = subscriptions st
  /\ videos (registerUser body files st).2 = videos st.
Proof.
  assert (Hsame : forall st' : Store, st' = st ->
            users st ⊆ users st' /\ size (users st') <= S (size (users st))
            /\ tweets st' = tweets st /\ likes st' = likes st
            /\ subscriptions st' = subscriptions st /\ videos st' = videos st).
  { intros st' ->. repeat split; [done | lia]. }
  unfold registerUser.
  destruct (existsb _ _); [by apply Hsame|].
  destruct (JS.truthy (JS.of_doc _)); [by apply Hsame|].
  destruct (avatarLocalPath files) as [e'|path]; [by apply Hsame|].
  destruct (negb (JS.truthy (JS.of_field path))); [by apply Hsame|].
  destruct (uploadOnCloudinary path) as [avatarUrl|]; [|by apply Hsame].
  destruct (body_username body) as [username|]; [|by apply Hsame].
  destruct (newUser _ _) as [e'|doc]; [by apply Hsame|].
  unfold create, findById. simpl. rewrite lookup_insert_eq. simpl.
  split; [apply insert_subseteq, newObjectId_fresh|].
  split; [|done].
  rewrite map_size_insert_None by apply newObjectId_fresh. lia.
Qed.

(** X16: a registration in which one of the four fields is present and
    blank (empty or white space only) fails with BadRequest before the
    store is read or a file is uploaded, and creates nothing. *)
Theorem registerUser_blank_field body files st field :
  Some field ∈ [body_fullName body; body_email body;
                body_username body; body_password body] ->
  trim field = EmptyString ->
  failsWith BadRequest (registerUser body files st).1
  /\ (registerUser body files st).2 = st.
Proof.
  intros Hin Hblank. unfold registerUser.
  assert (Hsome : existsb
            (fun f : option string => bool_decide (trim <$> f = Some EmptyString))
            [body_fullName body; body_email body; body_username body;
             body_password body] = true).
  { apply existsb_exists. exists (Some field). split.
    - by apply list_elem_of_In.
    - apply bool_decide_eq_true_2. simpl. by rewrite Hblank. }
  rewrite Hsome. split; [by eexists | done].
Qed.

(** X17: a registration with no blank field whose username, as given, or
    whose email is the one of a stored user fails with Conflict and
    creates nothing, whatever files come with it. *)
Theorem registerUser_conflict body files st id user :
  (forall field, Some field ∈ [body_fullName body; body_email body;
                               body_username body; body_password body] ->
                 trim field <> EmptyString) ->
  users st !! id = Some user ->
  body_username body = Some (User.username user)
  \/ body_email body = Some (User.email user) ->
  failsWith Conflict (registerUser body files st).1
  /\ (registerUser body files st).2 = st.
Proof.
  intros Hfilled Hu Hmatch. unfold registerUser.
  destruct (existsb _ _) eqn:Hblank.
  { exfalso. apply existsb_exists in Hblank as (f & Hin & Hf).
    apply bool_decide_eq_true_1 in Hf. destruct f as [field|]; [|discriminate].
    simpl in Hf. apply (Hfilled field); [by apply list_elem_of_In | congruence]. }
  assert (Hfound : is_Some (findOne
            (fun u => fieldIs (body_username body) (User.username u)
                      \/ fieldIs (body_email body) (User.email u)) (users st))).
  { eapply findOne_is_Some; [exact Hu|]. exact Hmatch. }
  destruct Hfound as [d Hd]. rewrite Hd. simpl. split; [by eexists | done].
Qed.

End RegistrationChecks.

(** ** Account updates *)

Section AccountUpdates.
Context {E : Env} {M : ModelHooks}.

(** X18: a password change is answered with success only when the viewer
    is stored and the old password passes the check; it then stores what
    the model saves for the new password. On every path nothing but
    password fields is written: the stored refresh tokens stay. *)
Theorem changeCurrentPassword_effect viewer oldPassword newPassword st :
  sameUsersUpTo (setPassword EmptyString)
    (changeCurrentPassword viewer oldPassword newPassword st).2 st
  /\ ((exists user,
          users st !! viewer = Some user
          /\ isPasswordCorrect user oldPassword = true
          /\ succeeds (changeCurrentPassword viewer oldPassword newPassword st).1
          /\ users (changeCurrentPassword viewer oldPassword newPassword st).2 !! viewer
             = Some (setPassword (savedPassword newPassword) user))
      \/ ((changeCurrentPassword viewer oldPassword newPassword st).2 = st
          /\ exists e,
               (changeCurrentPassword viewer oldPassword newPassword st).1 = Thrown e)).
Proof.
  unfold changeCurrentPassword, findById.
  destruct (users st !! viewer) as [user|] eqn:Hu;
    [|split; [apply sameUsersUpTo_refl | right; eauto]].
  destruct (isPasswordCorrect user oldPassword) eqn:Hpw; simpl;
    [|split; [apply sameUsersUpTo_refl | right; eauto]].
  split.
  - apply sameUsersUpTo_withUsers. by apply (fmap_insert_invariant _ _ user).
  - left. exists user. split; [done|]. split; [done|]. split.
    + eexists. split; reflexivity.
    + simpl. by rewrite lookup_insert_eq.
Qed.

(** X19: a wrong old password is refused with BadRequest and the stored
    password stays. *)
Theorem changeCurrentPassword_wrong_old viewer oldPassword newPassword user st :
  users st !! viewer = Some user ->
  isPasswordCorrect user oldPassword = false ->
  failsWith BadRequest (changeCurrentPassword viewer oldPassword newPassword st).1
  /\ (changeCurrentPassword viewer oldPassword newPassword st).2 = st.
Proof.
  intros Hu Hpw. unfold changeCurrentPassword, findById. rewrite Hu, Hpw. simpl.
  split; [by eexists | done].
Qed.

(** X20: a password change does not end the session: the refresh token
    stored before the change is still accepted afterwards. *)
Theorem password_change_keeps_session
  now viewer oldPassword newPassword user token sub st :
  users st !! viewer = Some user ->
  isPasswordCorrect user oldPassword = true ->
  User.refreshToken user = Some token ->
  token <> EmptyString ->
  jwtVerify token = inr (Some sub) ->
  castObjectId sub = Some viewer ->
  exists resp,
    (refreshAccessToken now (Some token) None
       (changeCurrentPassword viewer oldPassword newPassword st).2).1 = Sent resp.
Proof.
  intros Hu Hpw Htoken Hnonempty Hverify Hcast.
  unfold changeCurrentPassword, findById. rewrite Hu, Hpw. simpl.
  set (st1 := withUsers _ st).
  assert (Hu1 : users st1 !! viewer
                = Some (setPassword (savedPassword newPassword) user))
    by (subst st1; simpl; by rewrite lookup_insert_eq).
  unfold refreshAccessToken, orElse. simpl.
  rewrite (bool_decide_eq_false_2 (token = EmptyString)) by done. simpl.
  rewrite (bool_decide_eq_false_2 (token = EmptyString)) by done. simpl.
  unfold rotate, findById. rewrite Hverify, Hcast, Hu1. simpl.
  rewrite Htoken, bool_decide_eq_true_2 by done. simpl.
  rewrite (generateAccessAndRefereshTokens_found now viewer _ st1 Hu1).
  simpl. eauto.
Qed.

(** X21: an account update with both fields non-empty stores them on the
    viewer's record and answers with that record without its password,
    and with its stored refresh token. *)
Theorem updateAccountDetails_answer viewer fullName email user st :
  users st !! viewer = Some user ->
  fullName <> EmptyString ->
  email <> EmptyString ->
  let r := updateAccountDetails viewer (Some fullName) (Some email) st in
  users r.2 !! viewer = Some (setProfile fullName email user)
  /\ exists resp account,
       r.1 = Sent resp /\ data (json resp) = Some account
       /\ AccountUser.fullName account = fullName
       /\ AccountUser.email account = email
       /\ AccountUser.username account = User.username user
       /\ AccountUser.refreshToken account = User.refreshToken user.
Proof.
  intros Hu Hname Hemail r. subst r.
  unfold updateAccountDetails, findByIdAndUpdate. simpl.
  rewrite (bool_decide_eq_false_2 (fullName = EmptyString)) by done.
  rewrite (bool_decide_eq_false_2 (email = EmptyString)) by done. simpl.
  rewrite Hu. simpl. split; [by rewrite lookup_alter_eq, Hu|].
  eexists _, _. repeat split.
Qed.

(** X22: the account handlers write one thing each: [updateAccountDetails]
    only full names and emails, [updateUserAvatar] only avatars,
    [updateUserCoverImage] only cover images, on every path and in no
    other collection. *)
Theorem account_updates_write_their_field viewer fullName email filePath st :
  sameUsersUpTo (setProfile EmptyString EmptyString)
    (updateAccountDetails viewer fullName email st).2 st
  /\ sameUsersUpTo (setAvatar EmptyString) (updateUserAvatar viewer filePath st).2 st
  /\ sameUsersUpTo (setCoverImage EmptyString)
       (updateUserCoverImage viewer filePath st).2 st.
Proof.
  split; [|split].
  - unfold updateAccountDetails.
    destruct (negb _ || negb _); [apply sameUsersUpTo_refl|].
    destruct fullName as [fullName|], email as [email|];
      try apply sameUsersUpTo_refl.
    unfold findByIdAndUpdate. simpl.
    apply sameUsersUpTo_withUsers. by apply fmap_alter_invariant.
  - unfold updateUserAvatar.
    destruct (negb (JS.truthy (JS.of_field filePath))); [apply sameUsersUpTo_refl|].
    destruct (uploadOnCloudinary filePath) as [url|]; [|apply sameUsersUpTo_refl].
    destruct (negb (JS.truthy (JS.Str url))); [apply sameUsersUpTo_refl|].
    unfold findByIdAndUpdate. simpl.
    apply sameUsersUpTo_withUsers. by apply fmap_alter_invariant.
  - unfold updateUserCoverImage.
    destruct (negb (JS.truthy (JS.of_field filePath))); [apply sameUsersUpTo_refl|].
    destruct (uploadOnCloudinary filePath) as [url|]; [|apply sameUsersUpTo_refl].
    destruct (negb (JS.truthy (JS.Str url))); [apply sameUsersUpTo_refl|].
    unfold findByIdAndUpdate. simpl.
    apply sameUsersUpTo_withUsers. by apply fmap_alter_invariant.
Qed.

(** X23: an avatar update never answers with a response: every path ends
    in a thrown error. *)
Theorem updateUserAvatar_never_responds viewer filePath st :
  exists e, (updateUserAvatar viewer filePath st).1 = Thrown e.
Proof.
  unfold updateUserAvatar.
  destruct (negb (JS.truthy (JS.of_field filePath))); [eauto|].
  destruct (uploadOnCloudinary filePath) as [url|]; [|eauto].
  destruct (negb (JS.truthy (JS.Str url))); [eauto|].
  unfold findByIdAndUpdate. simpl. eauto.
Qed.

(** X24: when the file is there and the upload gives a url, the new
    avatar is already stored on the viewer's record when the avatar
    update throws its ReferenceError. *)
Theorem updateUserAvatar_throws_after_write viewer path url user st :
  users st !! viewer = Some user ->
  path <> EmptyString ->
  uploadOnCloudinary (Some path) = Some url ->
  url <> EmptyString ->
  (updateUserAvatar viewer (Some path) st).1
  = Thrown (RuntimeError "ReferenceError" "deletefromCloudinary is not defined")
  /\ users (updateUserAvatar viewer (Some path) st).2 !! viewer
     = Some (setAvatar url user).
Proof.
  intros Hu Hpath Hupload Hurl.
  unfold updateUserAvatar, findByIdAndUpdate. simpl.
  rewrite (bool_decide_eq_false_2 (path = EmptyString)) by done. simpl.
  rewrite Hupload. simpl.
  rewrite (bool_decide_eq_false_2 (url = EmptyString)) by done. simpl.
  split; [done|]. by rewrite lookup_alter_eq, Hu.
Qed.

(** X25: a cover image update with a file whose upload gives a url
    answers with success, stores the url on the viewer's record and
    answers with that record without its password. *)
Theorem updateUserCoverImage_replaces viewer path url user st :
  users st !! viewer = Some user ->
  path <> EmptyString ->
  uploadOnCloudinary (Some path) = Some url ->
  url <> EmptyString ->
  let r := updateUserCoverImage viewer (Some path) st in
  users r.2 !! viewer = Some (setCoverImage url user)
  /\ exists resp,
       r.1 = Sent resp /\ status resp = 200%Z
       /\ data (json resp)
          = Some (AccountUser.select (viewer, setCoverImage url user)).
Proof.
  intros Hu Hpath Hupload Hurl r. subst r.
  unfold updateUserCoverImage, findByIdAndUpdate. simpl.
  rewrite (bool_decide_eq_false_2 (path = EmptyString)) by done. simpl.
  rewrite Hupload. simpl.
  rewrite (bool_decide_eq_false_2 (url = EmptyString)) by done. simpl.
  rewrite Hu. simpl. split; [by rewrite lookup_alter_eq, Hu|].
  eexists. repeat split.
Qed.

End AccountUpdates.


(** ** More on the composed views *)

Section ComposedViews.
Context {E : Env}.

(** X26: for a username that is not blank, the channel profile is looked
    up by the lower-cased username: the request fails with NotFound
    exactly when no stored user has it, and otherwise answers with the
    profile of such a user, with that user's email and the number of
    stored edges whose subscriber is that user. *)
Theorem channelProfile_found_or_missing viewer username st :
  trim username <> EmptyString ->
  (failsWith NotFound (getUserChannelProfile viewer (Some username) st)
   /\ forall k u, users st !! k = Some u ->
                  User.username u <> toLowerCase username)
  \/ (exists resp u,
        getUserChannelProfile viewer (Some username) st = Sent resp
        /\ users st !! ChannelProfile._id (data (json resp)) = Some u
        /\ User.username u = toLowerCase username
        /\ ChannelProfile.username (data (json resp)) = toLowerCase username
        /\ ChannelProfile.email (data (json resp)) = User.email u
        /\ ChannelProfile.channelsSubscribedToCount (data (json resp))
           = size (filter (fun d : N * Subscription.t =>
                             Subscription.subscriber d.2
                             = ChannelProfile._id (data (json resp)))
                     (subscriptions st))).
Proof.
  intros Hname. unfold getUserChannelProfile. simpl.
  rewrite (bool_decide_eq_false_2 (trim username = EmptyString)) by done. simpl.
  unfold channelProfilePipeline.
  destruct (find (fun u => User.username u = toLowerCase username) (users st))
    as [|d l] eqn:Hfind; simpl.
  - left. split; [by eexists|]. intros k u Hk Hu.
    assert (Hin : (k, u) ∈ find (fun u => User.username u = toLowerCase username)
                             (users st))
      by (apply (proj2 (elem_of_find _ _ (k, u))); done).
    rewrite Hfind in Hin. inversion Hin.
  - right.
    assert (Hin : d ∈ find (fun u => User.username u = toLowerCase username)
                         (users st))
      by (rewrite Hfind; left).
    apply (proj1 (elem_of_find _ _ d)) in Hin as [Hd Hu].
    eexists _, d.2. split; [reflexivity|]. simpl.
    split; [done|]. split; [done|]. split; [done|]. split; [done|].
    unfold lookupFrom. rewrite length_fmap.
    apply (length_filter_documents
             (fun e : N * Subscription.t => Subscription.subscriber e.2 = d.1)).
Qed.

(** X27: for a stored viewer the watch history answers with one row per
    stored video whose identity is in the viewer's history: an identity
    listed twice gives one row, an identity of no stored video gives
    none; each row carries the video's details and the projection of its
    owner, when the owner is stored. *)
Theorem watchHistory_rows viewer user st :
  users st !! viewer = Some user ->
  exists resp,
    getWatchHistory viewer st = Sent resp
    /\ NoDup (VideoRow._id <$> data (json resp))
    /\ (forall id, id ∈ VideoRow._id <$> data (json resp)
                   <-> id ∈ User.watchHistory user /\ is_Some (videos st !! id))
    /\ forall row, row ∈ data (json resp) ->
         exists video,
           videos st !! VideoRow._id row = Some video
           /\ VideoRow.details row = Video.details video
           /\ VideoRow.owner row
              = (fun u => Profile.project (Video.owner video, u))
                  <$> users st !! Video.owner video.
Proof.
  intros Hu. unfold getWatchHistory, watchHistoryPipeline.
  rewrite filter_key_documents, Hu. simpl.
  eexists. split; [reflexivity|]. simpl. unfold lookupFrom.
  set (l := filter (fun v : N * Video.t => v.1 ∈ User.watchHistory user)
              (documents (videos st))).
  assert (Hids : VideoRow._id <$> (videoRow st <$> l) = l.*1).
  { rewrite <- list_fmap_compose. by apply list_fmap_ext. }
  rewrite Hids. split; [|split].
  - apply (sublist_NoDup _ ((documents (videos st)).*1)).
    + apply NoDup_fst_map_to_list.
    + apply fmap_sublist, sublist_filter.
  - intros id. split.
    + intros Hin. apply list_elem_of_fmap in Hin as (v & -> & Hv).
      apply list_elem_of_filter in Hv as [Hhist Hv].
      apply elem_of_documents in Hv. split; [done|]. eauto.
    + intros [Hhist [video Hv]]. apply list_elem_of_fmap. exists (id, video).
      split; [done|]. apply list_elem_of_filter. split; [done|].
      by apply (proj2 (elem_of_documents (videos st) (id, video))).
  - intros row Hrow. apply list_elem_of_fmap in Hrow as (v & -> & Hv).
    apply list_elem_of_filter in Hv as [_ Hv]. apply elem_of_documents in Hv.
    exists v.2. unfold videoRow. simpl. rewrite lookupFrom_by_key.
    split; [done|]. split; [done|]. by destruct (users st !! Video.owner v.2).
Qed.

End ComposedViews.


(** ** The further theorems at concrete inputs *)

Lemma createTweet_adds_feed_row_witness :
  let r := createTweet (M := DemoHooks.hooks) 5 2 (Some "  hi  ") Demo.store in
  succeeds r.1
  /\ (exists row, row ∈ userTweetsPipeline 2 r.2
                  /\ tweets Demo.store !! TweetRow._id row = None
                  /\ TweetRow.content row = "  hi  "
                  /\ TweetRow.createdAt row = 5%Z)
  /\ (forall row, row ∈ userTweetsPipeline 2 Demo.store ->
                  row ∈ userTweetsPipeline 2 r.2)
  /\ length (userTweetsPipeline 2 r.2) = S (length (userTweetsPipeline 2 Demo.store)).
Proof.
  apply (createTweet_adds_feed_row (M := DemoHooks.hooks) 5 2 "  hi  " Demo.store).
  discriminate.
Defined.

Lemma updateTweet_replaces_content_witness :
  let r := updateTweet (E := Demo.env) 2 Demo.tweetId10 (Some " hi ") Demo.store in
  (exists resp, r.1 = Sent resp /\ status resp = 200%Z
                /\ data (json resp) = JS.Function)
  /\ tweets r.2 !! 10%N = Some (Tweet.mk " hi " 2 100)
  /\ forall k, k <> 10%N -> tweets r.2 !! k = tweets Demo.store !! k.
Proof.
  apply (updateTweet_replaces_content (E := Demo.env) 2 Demo.tweetId10 " hi " 10%N
           (Tweet.mk "hello" 2 100) Demo.store).
  - reflexivity.
  - reflexivity.
  - reflexivity.
  - reflexivity.
  - discriminate.
  - vm_compute. discriminate.
Defined.

Lemma deleteTweet_then_gone_witness :
  let r := deleteTweet (E := Demo.env) 2 Demo.tweetId10 Demo.store in
  (exists resp, r.1 = Sent resp /\ data (json resp) = Some (Tweet.mk "hello" 2 100))
  /\ tweets r.2 = delete 10%N (tweets Demo.store)
  /\ failsWith NotFound (deleteTweet (E := Demo.env) 2 Demo.tweetId10 r.2).1
  /\ failsWith NotFound
       (updateTweet (E := Demo.env) 2 Demo.tweetId10 (Some "again") r.2).1.
Proof.
  apply (deleteTweet_then_gone (E := Demo.env) 2 Demo.tweetId10 (Some "again") 10%N
           (Tweet.mk "hello" 2 100) Demo.store); reflexivity.
Defined.

(** Ada toggles her subscription to Bob; the pair (Bob, Ada) is another. *)
Lemma toggle_touches_one_pair_witness :
  let r := toggleSubscription (E := Demo.env) 1 Demo.id2 Demo.store in
  (edgeExists 2 1 r.2 <-> edgeExists 2 1 Demo.store)
  /\ users r.2 = users Demo.store /\ tweets r.2 = tweets Demo.store
  /\ likes r.2 = likes Demo.store /\ videos r.2 = videos Demo.store.
Proof.
  apply (toggle_touches_one_pair (E := Demo.env) 1 Demo.id2 Demo.store 2%N 1%N).
  left. discriminate.
Defined.

(** Ada subscribes to herself. *)
Lemma toggle_succeeds_without_checks_witness :
  let r := toggleSubscription (E := Demo.env) 1 Demo.id1 Demo.store in
  succeeds r.1
  /\ (size (subscriptions r.2) = S (size (subscriptions Demo.store))
      \/ S (size (subscriptions r.2)) = size (subscriptions Demo.store)).
Proof.
  apply (toggle_succeeds_without_checks (E := Demo.env) 1 Demo.id1 1%N Demo.store).
  reflexivity.
Defined.


Lemma logout_revokes_witness :
  let revoked := (logoutUser 1 Demo.store).2 in
  failsWith Unauthorized
    (refreshAccessToken (E := Demo.env) 1 (Some "refresh-1-t0") None revoked).1
  /\ (refreshAccessToken (E := Demo.env) 1 (Some "refresh-1-t0") None revoked).2
     = revoked.
Proof.
  apply (logout_revokes (E := Demo.env) 1 (Some "refresh-1-t0") None "refresh-1-t0"
           Demo.id1 1%N Demo.store); reflexivity.
Defined.

Lemma demo_tokens_verify id user :
  users Demo.store !! id = Some user ->
  generateRefreshToken (Env := Demo.env) 0 id user <> EmptyString
  /\ exists sub, jwtVerify (Env := Demo.env)
                   (generateRefreshToken (Env := Demo.env) 0 id user) = inr (Some sub)
                 /\ castObjectId (Env := Demo.env) sub = Some id.
Proof.
  intros Hu. simpl in Hu. unfold Demo.people in Hu.
  apply lookup_insert_Some in Hu as [[<- <-] | [_ Hu]].
  { split; [discriminate|]. exists Demo.id1. by split. }
  apply lookup_insert_Some in Hu as [[<- <-] | [_ Hu]].
  { split; [discriminate|]. exists Demo.id2. by split. }
  by rewrite lookup_empty in Hu.
Qed.

Lemma login_then_refresh_witness :
  exists resp token resp',
    (loginUser (E := Demo.env) 0 None (Some "ada") (Some "hash:secret") Demo.store).1
    = Sent resp
    /\ TokenPair.refreshToken (data (json resp)).2 = Some token
    /\ (refreshAccessToken (E := Demo.env) 1 (Some token) None
          (loginUser (E := Demo.env) 0 None (Some "ada") (Some "hash:secret")
             Demo.store).2).1 = Sent resp'.
Proof.
  assert (Hsent : exists resp,
             (loginUser (E := Demo.env) 0 None (Some "ada") (Some "hash:secret")
                Demo.store).1 = Sent resp)
    by (eexists; vm_compute; reflexivity).
  destruct Hsent as [resp Hsent].
  destruct (login_then_refresh (E := Demo.env) 0 1 None (Some "ada")
              (Some "hash:secret") Demo.store resp demo_tokens_verify Hsent)
    as (token & resp' & Hpayload & Hrefresh).
  by exists resp, token, resp'.
Defined.

Lemma registerUser_blank_field_witness :
  failsWith BadRequest
    (registerUser (E := Demo.env) DemoHooks.blankRegistration None Demo.store).1
  /\ (registerUser (E := Demo.env) DemoHooks.blankRegistration None Demo.store).2
     = Demo.store.
Proof.
  apply (registerUser_blank_field (E := Demo.env) DemoHooks.blankRegistration None
           Demo.store "   ").
  - apply list_elem_of_In. simpl. tauto.
  - reflexivity.
Defined.

Lemma registerUser_conflict_witness :
  failsWith Conflict
    (registerUser (E := Demo.env) DemoHooks.takenRegistration
       (Some Demo.coverOnly) Demo.store).1
  /\ (registerUser (E := Demo.env) DemoHooks.takenRegistration
        (Some Demo.coverOnly) Demo.store).2 = Demo.store.
Proof.
  apply (registerUser_conflict (E := Demo.env) DemoHooks.takenRegistration
           (Some Demo.coverOnly) Demo.store 1%N Demo.ada).
  - intros field Hin. apply list_elem_of_In in Hin. simpl in Hin.
    destruct Hin as [[= <-] | [[= <-] | [[= <-] | [[= <-] | []]]]];
      vm_compute; discriminate.
  - reflexivity.
  - left. reflexivity.
Defined.

Lemma changeCurrentPassword_wrong_old_witness :
  failsWith BadRequest
    (changeCurrentPassword (E := Demo.env) (M := DemoHooks.hooks) 1 (Some "guess")
       (Some "new") Demo.store).1
  /\ (changeCurrentPassword (E := Demo.env) (M := DemoHooks.hooks) 1 (Some "guess")
        (Some "new") Demo.store).2 = Demo.store.
Proof.
  apply (changeCurrentPassword_wrong_old (E := Demo.env) (M := DemoHooks.hooks) 1
           (Some "guess") (Some "new") Demo.ada Demo.store); reflexivity.
Defined.

Lemma password_change_keeps_session_witness :
  exists resp,
    (refreshAccessToken (E := Demo.env) 1 (Some "refresh-1-t0") None
       (changeCurrentPassword (E := Demo.env) (M := DemoHooks.hooks) 1
          (Some "hash:secret") (Some "new") Demo.store).2).1 = Sent resp.
Proof.
  apply (password_change_keeps_session (E := Demo.env) (M := DemoHooks.hooks) 1 1%N
           (Some "hash:secret") (Some "new") Demo.ada "refresh-1-t0" Demo.id1
           Demo.store).
  - reflexivity.
  - reflexivity.
  - reflexivity.
  - discriminate.
  - reflexivity.
  - reflexivity.
Defined.

Lemma updateAccountDetails_answer_witness :
  let r := updateAccountDetails 1 (Some "Ada King") (Some "king@x.com") Demo.store in
  users r.2 !! 1%N = Some (setProfile "Ada King" "king@x.com" Demo.ada)
  /\ exists resp account,
       r.1 = Sent resp /\ data (json resp) = Some account
       /\ AccountUser.fullName account = "Ada King"
       /\ AccountUser.email account = "king@x.com"
       /\ AccountUser.username account = "ada"
       /\ AccountUser.refreshToken account = Some "refresh-1-t0".
Proof.
  apply (updateAccountDetails_answer 1 "Ada King" "king@x.com" Demo.ada Demo.store).
  - reflexivity.
  - discriminate.
  - discriminate.
Defined.

Lemma updateUserAvatar_throws_after_write_witness :
  (updateUserAvatar (E := Demo.env) 1 (Some "/tmp/new.png") Demo.store).1
  = Thrown (RuntimeError "ReferenceError" "deletefromCloudinary is not defined")
  /\ users (updateUserAvatar (E := Demo.env) 1 (Some "/tmp/new.png") Demo.store).2
       !! 1%N
     = Some (setAvatar "https://media.example//tmp/new.png" Demo.ada).
Proof.
  apply (updateUserAvatar_throws_after_write (E := Demo.env) 1 "/tmp/new.png"
           "https://media.example//tmp/new.png" Demo.ada Demo.store).
  - reflexivity.
  - discriminate.
  - reflexivity.
  - discriminate.
Defined.

Lemma updateUserCoverImage_replaces_witness :
  let r := updateUserCoverImage (E := Demo.env) 1 (Some "/tmp/sky.png") Demo.store in
  users r.2 !! 1%N = Some (setCoverImage "https://media.example//tmp/sky.png" Demo.ada)
  /\ exists resp,
       r.1 = Sent resp /\ status resp = 200%Z
       /\ data (json resp)
          = Some (AccountUser.select
                    (1%N, setCoverImage "https://media.example//tmp/sky.png" Demo.ada)).
Proof.
  apply (updateUserCoverImage_replaces (E := Demo.env) 1 "/tmp/sky.png"
           "https://media.example//tmp/sky.png" Demo.ada Demo.store).
  - reflexivity.
  - discriminate.
  - reflexivity.
  - discriminate.
Defined.

Lemma channelProfile_found_or_missing_witness :
  (failsWith NotFound (getUserChannelProfile (E := Demo.env) 1 (Some "BOB") Demo.store)
   /\ forall k u, users Demo.store !! k = Some u ->
                  User.username u <> toLowerCase (Env := Demo.env) "BOB")
  \/ (exists resp u,
        getUserChannelProfile (E := Demo.env) 1 (Some "BOB") Demo.store = Sent resp
        /\ users Demo.store !! ChannelProfile._id (data (json resp)) = Some u
        /\ User.username u = toLowerCase (Env := Demo.env) "BOB"
        /\ ChannelProfile.username (data (json resp)) = toLowerCase (Env := Demo.env) "BOB"
        /\ ChannelProfile.email (data (json resp)) = User.email u
        /\ ChannelProfile.channelsSubscribedToCount (data (json resp))
           = size (filter (fun d : N * Subscription.t =>
                             Subscription.subscriber d.2
                             = ChannelProfile._id (data (json resp)))
                     (subscriptions Demo.store))).
Proof.
  apply (channelProfile_found_or_missing (E := Demo.env) 1 "BOB" Demo.store).
  vm_compute. discriminate.
Defined.

Lemma watchHistory_rows_witness :
  exists resp,
    getWatchHistory 1 Demo.store = Sent resp
    /\ NoDup (VideoRow._id <$> data (json resp))
    /\ (forall id, id ∈ VideoRow._id <$> data (json resp)
                   <-> id ∈ User.watchHistory Demo.ada
                       /\ is_Some (videos Demo.store !! id))
    /\ forall row, row ∈ data (json resp) ->
         exists video,
           videos Demo.store !! VideoRow._id row = Some video
           /\ VideoRow.details row = Video.details video
           /\ VideoRow.owner row
              = (fun u => Profile.project (Video.owner video, u))
                  <$> users Demo.store !! Video.owner video.
Proof.
  apply (watchHistory_rows 1 Demo.ada Demo.store). reflexivity.
Defined.

(** ** The token helper and the reach of the tweet handlers *)

Section HelperAndFrames.
Context {E : Env} {M : ModelHooks}.

(** X28: the token helper fails with InternalError, writing nothing, when
    the user is not stored; otherwise the refresh token in the object it
    returns is the one it has stored on the user's record. *)
Theorem token_helper_stores_what_it_returns now userId st :
  (users st !! userId = None
   /\ (generateAccessAndRefereshTokens now userId st).2 = st
   /\ exists msg,
        (generateAccessAndRefereshTokens now userId st).1
        = inl (ApiError InternalError msg))
  \/ (exists tokens token,
        (generateAccessAndRefereshTokens now userId st).1 = inr tokens
        /\ tokens !! "refreshToken" = Some token
        /\ is_Some (tokens !! "accessToken")
        /\ User.refreshToken
             <$> users (generateAccessAndRefereshTokens now userId st).2 !! userId
           = Some (Some token)).
Proof.
  destruct (users st !! userId) as [user|] eqn:Hu.
  - right. rewrite (generateAccessAndRefereshTokens_found now userId user st Hu).
    destruct (tokens_properties (generateAccessToken now userId user)
                (generateRefreshToken now userId user)) as (Ha & Hr & _).
    eexists _, _. split; [reflexivity|]. split; [exact Hr|].
    split; [rewrite Ha; eauto|]. simpl. by rewrite lookup_insert_eq.
  - left. unfold generateAccessAndRefereshTokens, findById. rewrite Hu.
    split; [done|]. split; [done|]. by eexists.
Qed.

(** X29: creating, updating and deleting tweets write to the tweets
    collection only: users, likes, subscriptions and videos are the same
    after the call, so the likes of a deleted tweet stay stored. *)
Theorem tweet_handlers_write_only_tweets now viewer tweetId content st :
  let unchanged (st' : Store) :=
    users st' = users st /\ likes st' = likes st
    /\ subscriptions st' = subscriptions st /\ videos st' = videos st in
  unchanged (createTweet now viewer content st).2
  /\ unchanged (updateTweet viewer tweetId content st).2
  /\ unchanged (deleteTweet viewer tweetId st).2.
Proof.
  simpl. split; [|split].
  - unfold createTweet.
    destruct (bool_decide (content = Some EmptyString)); [done|].
    destruct content as [content|]; [done|].
    by destruct (tweetWithoutContent viewer now).
  - unfold updateTweet.
    destruct (negb (isValidObjectId tweetId)); [done|].
    destruct (castObjectId tweetId) as [id|]; [|done].
    destruct (findById (tweets st) id) as [tweet|]; [|done].
    destruct (negb (bool_decide _)); [done|].
    destruct content as [content|]; [|done].
    destruct (negb (JS.truthy (JS.Str content))); [done|].
    unfold findByIdAndUpdate. by destruct (negb (JS.truthy (JS.of_doc _))).
  - unfold deleteTweet.
    destruct (negb (isValidObjectId tweetId)); [done|].
    destruct (castObjectId tweetId) as [id|]; [|done].
    destruct (findById (tweets st) id) as [tweet|]; [|done].
    destruct (negb (bool_decide _)); [done|].
    unfold findByIdAndDelete. by destruct (negb (JS.truthy (JS.of_doc _))).
Qed.

End HelperAndFrames.
